(** * HTFlow extension: the running-server registry and the message router

    A shallow embedding of [src/sidebarProvider.ts] (class
    [HTFlowSidebarProvider]): the registry of running preview servers, the
    launcher [startHTFlowServer], [stopServer], [dispose], the captured
    command executors and the message dispatch of the three webview
    surfaces.

    Conventions of the embedding.
    - JavaScript strings are [string], one character for each UTF-16 code
      unit, for the code units up to 255; the white space among these is
      the tab, the line feed, the vertical tab, the form feed, the carriage
      return, the space and the no-break space (9 to 13, 32 and 160).
    - A JavaScript number is [JsNumber]: a finite value is a rational (every
      finite double is one), next to NaN and the two infinities.
    - A [Map] is an association list in insertion order with unique keys,
      which is the order [Map.prototype.entries] iterates in.
    - The provider's fields are the record [Provider]; every method takes the
      provider and returns the new provider, its result and the host effects
      it issued, in order.
    - A message from a webview is read by property name; its properties
      hold primitive values.
    - Console output is recorded only at the places that report a failure.
    - Of the host calls, the two made on a terminal when its server is
      stopped (the interrupt sent with [sendText], and [dispose]) may throw;
      the terminal says so. The others return normally. *)

From Stdlib Require Import List String Ascii ZArith QArith Qround Lia Bool.
From Stdlib Require Import DecimalString.
Import ListNotations.

Open Scope string_scope.
Open Scope Z_scope.

(* ================================================================= *)
(** ** JavaScript values *)

Inductive JsNumber : Type :=
| Finite (q : Q)
| NaN
| PosInfinity
| NegInfinity.

Inductive JsValue : Type :=
| VUndefined
| VNull
| VBool (b : bool)
| VNum (n : JsNumber)
| VStr (s : string).

Definition VInt (z : Z) : JsValue := VNum (Finite (inject_Z z)).

(** Truthiness, as [if (v)], [!v], [a || b] and [a && b] use it. *)
Definition truthy (v : JsValue) : bool :=
  match v with
  | VUndefined | VNull => false
  | VBool b => b
  | VNum (Finite q) => negb (Qeq_bool q 0)
  | VNum NaN => false
  | VNum _ => true
  | VStr s => negb (s =? "")%string
  end.

(** [a || b] *)
Definition js_or (a b : JsValue) : JsValue := if truthy a then a else b.

(** [Number.isFinite(v)]: no coercion, only a finite number passes. *)
Definition Number_isFinite (v : JsValue) : bool :=
  match v with
  | VNum (Finite _) => true
  | _ => false
  end.

(** The conversions of the language that the handlers call on message
    fields: [Number(s)] on a string and [n.toString()] on a number. *)
Class JsBuiltins : Type := {
  StringToNumber : string -> JsNumber;
  NumberToString : JsNumber -> string
}.

(** [Number(v)] *)
Definition Number {B : JsBuiltins} (v : JsValue) : JsNumber :=
  match v with
  | VUndefined => NaN
  | VNull => Finite 0
  | VBool true => Finite 1
  | VBool false => Finite 0
  | VNum n => n
  | VStr s => StringToNumber s
  end.

(** [v.toString()] on a value that has the method; on [undefined] and
    [null] the call throws, they are mapped to the empty string and the
    handlers never reach them. *)
Definition toString {B : JsBuiltins} (v : JsValue) : string :=
  match v with
  | VUndefined | VNull => ""
  | VBool true => "true"
  | VBool false => "false"
  | VNum n => NumberToString n
  | VStr s => s
  end.

(** Decimal text of an integer, as a template literal prints it. *)
Definition string_of_Z (z : Z) : string :=
  NilZero.string_of_int (Z.to_int z).

(* ================================================================= *)
(** ** Strings: [String.prototype.trim] *)

Definition is_whitespace (c : ascii) : bool :=
  let n := nat_of_ascii c in
  (Nat.eqb n 32 || Nat.eqb n 160 || (Nat.leb 9 n && Nat.leb n 13))%bool.

Fixpoint trimStart (s : string) : string :=
  match s with
  | EmptyString => EmptyString
  | String c r => if is_whitespace c then trimStart r else s
  end.

Fixpoint trimEnd (s : string) : string :=
  match s with
  | EmptyString => EmptyString
  | String c r =>
      match trimEnd r with
      | EmptyString => if is_whitespace c then EmptyString else String c EmptyString
      | r' => String c r'
      end
  end.

Definition trim (s : string) : string := trimEnd (trimStart s).

(* ================================================================= *)
(** ** [Map<string, V>] in insertion order *)

Section JsMap.
Context {V : Type}.

Definition JsMap : Type := list (string * V).

Fixpoint Map_get (k : string) (m : JsMap) : option V :=
  match m with
  | [] => None
  | (k', v) :: r => if (k' =? k)%string then Some v else Map_get k r
  end.

Definition Map_has (k : string) (m : JsMap) : bool :=
  match Map_get k m with
  | Some _ => true
  | None => false
  end.

(** [set] keeps the position of a key that is present and appends a new
    key at the end. *)
Fixpoint Map_set (k : string) (v : V) (m : JsMap) : JsMap :=
  match m with
  | [] => [(k, v)]
  | (k', v') :: r =>
      if (k' =? k)%string then (k, v) :: r else (k', v') :: Map_set k v r
  end.

Fixpoint Map_delete (k : string) (m : JsMap) : JsMap :=
  match m with
  | [] => []
  | (k', v') :: r =>
      if (k' =? k)%string then Map_delete k r else (k', v') :: Map_delete k r
  end.

Definition Map_clear (m : JsMap) : JsMap := [].
End JsMap.
Arguments JsMap V : clear implicits.

(* ================================================================= *)
(** ** Data model *)

Inductive Origin : Type := browser | sidebar.

Definition Origin_eqb (a b : Origin) : bool :=
  match a, b with
  | browser, browser | sidebar, sidebar => true
  | _, _ => false
  end.

(** A [vscode.Terminal]: the options it was created with and how the host
  answers when its server is stopped, to the interrupt sent with
  [sendText] and to [dispose]: [None] when the call returns, [Some msg]
  when it throws an error with message [msg]. *)
Module Terminal.
Record t : Type := make {
  name : string;
  cwd : string;
  interruptThrows : option string;
  disposeThrows : option string
}.
End Terminal.

(** [type RunningServer] *)
Module RunningServer.
Record t : Type := make {
  port : Z;
  mode : string;
  folder : string;
  startTime : Z;
  terminal : Terminal.t;
  origin : Origin
}.
End RunningServer.

(** One entry of [webview.options.portMapping]. *)
Record PortMapping : Type := {
  webviewPort : Z;
  extensionHostPort : Z
}.

(** The fields of [HTFlowSidebarProvider]. A surface that exists is [true]
    (or [Some] of its port mapping, for the browser panel). *)
Record Provider : Type := {
  _view : bool;
  _browserPanel : option (list PortMapping);
  _fileWatcher : bool;
  _runningServers : JsMap RunningServer.t;
  _terminals : JsMap Terminal.t;
  _currentPanel : bool;
  _browserLiveServerId : option string
}.

(** The provider right after its constructor ran. *)
Definition newProvider : Provider := {|
  _view := false;
  _browserPanel := None;
  _fileWatcher := true;
  _runningServers := [];
  _terminals := [];
  _currentPanel := false;
  _browserLiveServerId := None
|}.

(** What the host supplies to one call: the workspace root, the clock, and
    the behaviour of a terminal created during the call. *)
Record HostEnv : Type := {
  workspaceFolder : option string;
  dateNow : Z;
  newDate : Z;
  newTerminalInterruptThrows : option string;
  newTerminalDisposeThrows : option string
}.

(* ================================================================= *)
(** ** Host effects *)

Inductive Surface : Type := SidebarView | DetachedPanel | BrowserPanel.

Record ServerPayload : Type := {
  payload_port : Z;
  payload_mode : string;
  payload_folder : string;
  payload_startTime : Z
}.

(** The [data] of [commandResults]; [error] is set on failure only and
    reads [false] when it is absent. *)
Record CommandData : Type := {
  data_command : string;
  data_output : string;
  data_error : bool;
  data_success : bool;
  data_exitCode : JsValue;
  data_duration : Z
}.

(** Messages posted to a webview. *)
Inductive OutMessage : Type :=
| serverStarted (serverId : string) (serverInfo : ServerPayload)
| serverStopped (serverId : string) (port : option Z)
| liveServerStarted (port : Z) (serverId : string) (mode : string)
| liveServerStopped
| liveServerError (error : string)
| commandResults (data : CommandData)
| auditResults (output : string).

Inductive Effect : Type :=
| CreateTerminal (t : Terminal.t)
| TerminalShow (t : Terminal.t)
| TerminalSendText (t : Terminal.t) (text : string) (addNewLine : bool)
| TerminalDispose (t : Terminal.t)
| PostMessage (target : Surface) (msg : OutMessage)
| ShowInformationMessage (text : string)
| ShowErrorMessage (text : string)
| SetStatusBarMessage (text : string) (hideAfter : Z)
| OpenAfter (delay : Z) (url : string)
| DisposeFileWatcher
| DisposeBrowserPanel
| ConsoleLog (text : string)
| ConsoleWarn (text : string)
| ConsoleError (text : string).

(* ================================================================= *)
(** ** Field updates of the provider *)

Definition set_runningServers (m : JsMap RunningServer.t) (p : Provider) : Provider :=
  {| _view := _view p; _browserPanel := _browserPanel p;
     _fileWatcher := _fileWatcher p; _runningServers := m;
     _terminals := _terminals p; _currentPanel := _currentPanel p;
     _browserLiveServerId := _browserLiveServerId p |}.

Definition set_terminals (m : JsMap Terminal.t) (p : Provider) : Provider :=
  {| _view := _view p; _browserPanel := _browserPanel p;
     _fileWatcher := _fileWatcher p; _runningServers := _runningServers p;
     _terminals := m; _currentPanel := _currentPanel p;
     _browserLiveServerId := _browserLiveServerId p |}.

Definition set_browserLiveServerId (i : option string) (p : Provider) : Provider :=
  {| _view := _view p; _browserPanel := _browserPanel p;
     _fileWatcher := _fileWatcher p; _runningServers := _runningServers p;
     _terminals := _terminals p; _currentPanel := _currentPanel p;
     _browserLiveServerId := i |}.

Definition set_browserPanel (b : option (list PortMapping)) (p : Provider) : Provider :=
  {| _view := _view p; _browserPanel := b;
     _fileWatcher := _fileWatcher p; _runningServers := _runningServers p;
     _terminals := _terminals p; _currentPanel := _currentPanel p;
     _browserLiveServerId := _browserLiveServerId p |}.

Definition set_fileWatcher (b : bool) (p : Provider) : Provider :=
  {| _view := _view p; _browserPanel := _browserPanel p;
     _fileWatcher := b; _runningServers := _runningServers p;
     _terminals := _terminals p; _currentPanel := _currentPanel p;
     _browserLiveServerId := _browserLiveServerId p |}.

Definition set_view (b : bool) (p : Provider) : Provider :=
  {| _view := b; _browserPanel := _browserPanel p;
     _fileWatcher := _fileWatcher p; _runningServers := _runningServers p;
     _terminals := _terminals p; _currentPanel := _currentPanel p;
     _browserLiveServerId := _browserLiveServerId p |}.

Definition set_currentPanel (b : bool) (p : Provider) : Provider :=
  {| _view := _view p; _browserPanel := _browserPanel p;
     _fileWatcher := _fileWatcher p; _runningServers := _runningServers p;
     _terminals := _terminals p; _currentPanel := b;
     _browserLiveServerId := _browserLiveServerId p |}.

(* ================================================================= *)
(** ** The registry: lookup by port, port mapping *)

(** The test of [findRunningServerByPort]:
    [server.port === port && (!mode || server.mode === mode)]. *)
Definition matchesPort (port : Z) (mode : option string)
    (server : RunningServer.t) : bool :=
  (RunningServer.port server =? port) &&
  match mode with
  | None => true
  | Some m => (m =? "")%string || (RunningServer.mode server =? m)%string
  end.

Fixpoint findIn (port : Z) (mode : option string)
    (entries : JsMap RunningServer.t) : option (string * RunningServer.t) :=
  match entries with
  | [] => None
  | (serverId, server) :: rest =>
      if matchesPort port mode server then Some (serverId, server)
      else findIn port mode rest
  end.

Definition findRunningServerByPort (this : Provider) (port : Z)
    (mode : option string) : option (string * RunningServer.t) :=
  findIn port mode (_runningServers this).

Definition ensureBrowserPortMapping (this : Provider) (port : Z) : Provider :=
  match _browserPanel this with
  | None => this
  | Some currentMappings =>
      if existsb (fun mapping => extensionHostPort mapping =? port) currentMappings
      then this
      else set_browserPanel
             (Some (currentMappings ++
                      [{| webviewPort := port; extensionHostPort := port |}])%list)
             this
  end.

(* ================================================================= *)
(** ** [startHTFlowServer] *)

Definition defaultPort (mode : string) : Z :=
  if (mode =? "dev")%string then 3050
  else if (mode =? "start")%string then 3051
  else 3000.

(** [Math.max(1, Math.min(65535, Math.floor(port)))] *)
Definition clampPort (q : Q) : Z := Z.max 1 (Z.min 65535 (Qfloor q)).

(** [Number.isFinite(port) ? Math.max(1, Math.min(65535, Math.floor(port)))
     : defaultPort] *)
Definition normalizePort (port : JsValue) (mode : string) : Z :=
  match port with
  | VNum (Finite q) => clampPort q
  | _ => defaultPort mode
  end.

(** The default of the parameter [port: number = 3000]. *)
Definition portParameter (port : JsValue) : JsValue :=
  match port with
  | VUndefined => VInt 3000
  | _ => port
  end.

(** [folder?.trim() ?? ""]; a folder that is neither a string nor nullish
    has no [trim] and the call throws a [TypeError]. *)
Definition folderValueOf (folder : JsValue) : option string :=
  match folder with
  | VUndefined | VNull => Some ""
  | VStr s => Some (trim s)
  | _ => None
  end.

Definition trimTypeError : string := "folder?.trim is not a function".

(** The command line sent to the new terminal. *)
Definition serverCommand (mode : string) (folderValue : string)
    (hasUserSpecifiedPort : bool) (normalizedPort : Z) : string :=
  let folderArg :=
    if (folderValue =? "")%string then "" else " " ++ folderValue in
  if (mode =? "dev")%string && negb hasUserSpecifiedPort then
    "npx htflow dev" ++ folderArg
  else if (mode =? "start")%string && negb hasUserSpecifiedPort then
    "npx htflow serve" ++ folderArg
  else
    let portArg := " -p " ++ string_of_Z normalizedPort in
    "npx htflow serve " ++ mode ++ folderArg ++ portArg.

Definition StartResult : Type := option (string * RunningServer.t).

Definition postIf (present : bool) (target : Surface) (msg : OutMessage)
  : list Effect :=
  if present then [PostMessage target msg] else [].

Definition hasBrowserPanel (this : Provider) : bool :=
  match _browserPanel this with Some _ => true | None => false end.

Definition startHTFlowServer (this : Provider) (env : HostEnv)
    (port : JsValue) (mode : string) (folder : JsValue) (origin : Origin)
    (hasUserSpecifiedPort : JsValue)
  : Provider * StartResult * list Effect :=
  let port := portParameter port in
  let normalizedPort := normalizePort port mode in
  let existing := findRunningServerByPort this normalizedPort (Some mode) in
  let isBrowserOrigin := Origin_eqb origin browser in
  match existing with
  | Some (serverId, server) =>
      let sport := string_of_Z (RunningServer.port server) in
      if isBrowserOrigin then
        (ensureBrowserPortMapping
           (set_browserLiveServerId (Some serverId) this)
           (RunningServer.port server),
         existing,
         [TerminalShow (RunningServer.terminal server);
          SetStatusBarMessage
            ("HTFlow server already running on port " ++ sport) 4000])
      else
        (this, existing,
         [TerminalShow (RunningServer.terminal server);
          ShowInformationMessage
            ("HTFlow " ++ RunningServer.mode server ++
             " server already running on port " ++ sport)])
  | None =>
      match workspaceFolder env with
      | None =>
          (this, None,
           [ShowErrorMessage
              "Cannot start HTFlow server: no workspace folder is open"])
      | Some fsPath =>
          let sport := string_of_Z normalizedPort in
          let serverId := mode ++ "-" ++ sport ++ "-" ++ string_of_Z (dateNow env) in
          let terminal :=
            Terminal.make ("HTFlow Server (" ++ mode ++ ":" ++ sport ++ ")")
              fsPath (newTerminalInterruptThrows env)
              (newTerminalDisposeThrows env) in
          let this1 := set_terminals (Map_set serverId terminal (_terminals this)) this in
          match folderValueOf folder with
          | None =>
              (this1, None,
               [CreateTerminal terminal;
                ConsoleError "HTFlow server error:";
                ShowErrorMessage
                  ("Failed to start HTFlow server: " ++ trimTypeError)])
          | Some folderValue =>
              let serverInfo :=
                RunningServer.make normalizedPort mode folderValue
                  (newDate env) terminal origin in
              let this2 :=
                set_runningServers
                  (Map_set serverId serverInfo (_runningServers this1)) this1 in
              let this3 :=
                if isBrowserOrigin
                then set_browserLiveServerId (Some serverId) this2
                else this2 in
              let command :=
                serverCommand mode folderValue (truthy hasUserSpecifiedPort)
                  normalizedPort in
              let folderText :=
                if (folderValue =? "")%string then ""
                else " from folder '" ++ folderValue ++ "'" in
              let statusMessage :=
                "HTFlow " ++ mode ++ " server starting on port " ++ sport ++
                folderText ++ "..." in
              let payload :=
                {| payload_port := RunningServer.port serverInfo;
                   payload_mode := RunningServer.mode serverInfo;
                   payload_folder := RunningServer.folder serverInfo;
                   payload_startTime := RunningServer.startTime serverInfo |} in
              (if isBrowserOrigin
               then ensureBrowserPortMapping this3 normalizedPort
               else this3,
               Some (serverId, serverInfo),
               ([CreateTerminal terminal;
                 TerminalShow terminal;
                 TerminalSendText terminal command true] ++
                [if isBrowserOrigin
                 then SetStatusBarMessage statusMessage 4000
                 else ShowInformationMessage statusMessage] ++
                postIf (_view this3) SidebarView (serverStarted serverId payload) ++
                postIf (hasBrowserPanel this3) BrowserPanel
                  (serverStarted serverId payload) ++
                (if isBrowserOrigin then []
                 else [OpenAfter 3000 ("http://localhost:" ++ sport)%string]))%list)
          end
      end
  end.

(* ================================================================= *)
(** ** [stopServer] and [dispose] *)

(** [resolvedPort ? ... : ...] on an optional integer. *)
Definition portTruthy (p : option Z) : bool :=
  match p with
  | Some z => negb (z =? 0)
  | None => false
  end.

(** [a ?? b] *)
Definition nullish {A : Type} (a b : option A) : option A :=
  match a with
  | Some _ => a
  | None => b
  end.

Definition isTarget (this : Provider) (serverId : string) : bool :=
  match _browserLiveServerId this with
  | Some i => (i =? serverId)%string
  | None => false
  end.

(** [this._terminals.get(serverId) ?? serverInfo?.terminal ?? null] *)
Definition terminalOf (this : Provider) (serverId : string) : option Terminal.t :=
  nullish (Map_get serverId (_terminals this))
          (option_map RunningServer.terminal
             (Map_get serverId (_runningServers this))).

(** The guard [!serverInfo && !this._terminals.has(serverId)]. *)
Definition notFound (this : Provider) (serverId : string) : bool :=
  negb (Map_has serverId (_runningServers this)) &&
  negb (Map_has serverId (_terminals this)).

(** An identifier with a registry entry or a terminal handle. *)
Definition known (this : Provider) (serverId : string) : bool :=
  negb (notFound this serverId).

Definition stopServer (this : Provider) (serverId : string) (port : option Z)
  : Provider * bool * list Effect :=
  let serverInfo := Map_get serverId (_runningServers this) in
  let resolvedPort := nullish port (option_map RunningServer.port serverInfo) in
  let isBrowserOrigin :=
    match serverInfo with
    | Some s => Origin_eqb (RunningServer.origin s) browser
    | None => false
    end in
  if notFound this serverId then
    (this, false,
     [ConsoleWarn ("HTFlow: No running server found for ID " ++ serverId)])
  else
  let terminal := terminalOf this serverId in
  let interrupt (t : Terminal.t) : list Effect :=
    match Terminal.interruptThrows t with
    | None => [TerminalSendText t (String "003"%char "") false]
    | Some _ =>
        [ConsoleLog ("HTFlow: Unable to send interrupt to server " ++
                     serverId ++ ":")]
    end in
  let finish (this1 : Provider) (done : list Effect) :=
    let this2 :=
      set_runningServers (Map_delete serverId (_runningServers this1)) this1 in
    let stopped := serverStopped serverId resolvedPort in
    let this3 :=
      if isTarget this2 serverId
      then set_browserLiveServerId None this2
      else this2 in
    let successMessage :=
      match resolvedPort with
      | Some z =>
          if portTruthy resolvedPort
          then "HTFlow server on port " ++ string_of_Z z ++
               " stopped successfully"
          else "HTFlow server stopped successfully"
      | None => "HTFlow server stopped successfully"
      end in
    (this3, true,
     (done ++
      postIf (_view this2) SidebarView stopped ++
      postIf (hasBrowserPanel this2) BrowserPanel stopped ++
      (if isTarget this2 serverId
       then postIf (hasBrowserPanel this2) BrowserPanel liveServerStopped
       else []) ++
      [if isBrowserOrigin
       then SetStatusBarMessage successMessage 3000
       else ShowInformationMessage successMessage])%list) in
  match terminal with
  | Some t =>
      match Terminal.disposeThrows t with
      | Some errorMessage =>
          (this, false,
           (interrupt t ++
            [ConsoleError
               ("HTFlow: Error stopping server " ++ serverId ++ ":")%string;
             ShowErrorMessage
               ("Failed to stop HTFlow server: " ++ errorMessage)%string])%list)
      | None =>
          finish
            (set_terminals (Map_delete serverId (_terminals this)) this)
            (interrupt t ++ [TerminalDispose t])%list
      end
  | None => finish this []
  end.

(** [this._terminals.forEach(terminal => terminal.dispose())]: the effects
    up to the first terminal whose disposal throws, and that error. *)
Fixpoint disposeEach (terminals : JsMap Terminal.t)
  : list Effect * option string :=
  match terminals with
  | [] => ([], None)
  | (_, t) :: rest =>
      match Terminal.disposeThrows t with
      | Some errorMessage => ([], Some errorMessage)
      | None =>
          let '(effects, thrown) := disposeEach rest in
          (TerminalDispose t :: effects, thrown)
      end
  end.

(** [dispose()]; the last component is the error that escapes, if any. *)
Definition dispose (this : Provider)
  : Provider * list Effect * option string :=
  let e1 := if _fileWatcher this then [DisposeFileWatcher] else [] in
  let this1 := if _fileWatcher this then set_fileWatcher false this else this in
  let e2 := if hasBrowserPanel this1 then [DisposeBrowserPanel] else [] in
  let this2 := set_browserPanel None this1 in
  let '(e3, thrown) := disposeEach (_terminals this2) in
  match thrown with
  | Some errorMessage => (this2, (e1 ++ e2 ++ e3)%list, Some errorMessage)
  | None =>
      (set_runningServers (Map_clear (_runningServers this2))
         (set_terminals (Map_clear (_terminals this2)) this2),
       (e1 ++ e2 ++ e3)%list, None)
  end.

(** The [browserReady] message of the browser panel: the panel is told the
    state of the live-preview target, and a target that names no running
    server is dropped. *)
Definition browserReady (this : Provider) : Provider * list Effect :=
  match _browserLiveServerId this with
  | Some serverId =>
      if (serverId =? "")%string then
        (this, [PostMessage BrowserPanel liveServerStopped])
      else
        match Map_get serverId (_runningServers this) with
        | Some runningServer =>
            (ensureBrowserPortMapping this (RunningServer.port runningServer),
             [PostMessage BrowserPanel
                (liveServerStarted (RunningServer.port runningServer) serverId
                   (RunningServer.mode runningServer))])
        | None =>
            (set_browserLiveServerId None this,
             [PostMessage BrowserPanel liveServerStopped])
        end
  | None => (this, [PostMessage BrowserPanel liveServerStopped])
  end.

(* ================================================================= *)
(** ** Captured command execution *)

(** The error [util.promisify(exec)] rejects with. *)
Record ExecError : Type := {
  err_stdout : string;
  err_stderr : string;
  err_message : string;
  err_code : JsValue
}.

Inductive ExecOutcome : Type :=
| Resolved (stdout stderr : string)
| Rejected (execError : ExecError).

(** What the host supplies to one captured execution: the workspace root,
    how the child process settles, and the clock before and after. *)
Record ExecEnv : Type := {
  exec_workspaceFolder : option string;
  exec_outcome : ExecOutcome;
  exec_startTime : Z;
  exec_endTime : Z
}.

(** [a || b] on strings. *)
Definition str_or (a b : string) : string :=
  if (a =? "")%string then b else a.

(** A terminal that only echoes a command. *)
Definition echoTerminal (name cwd : string) : Terminal.t :=
  Terminal.make name cwd None None.

(** [folder && folder.trim()] as a condition, and the text it adds. *)
Definition folderSuffix (folder : option string) : string :=
  match folder with
  | Some f => if (trim f =? "")%string then "" else " " ++ trim f
  | None => ""
  end.

Definition panelCommandText (command : string) (folder : option string) : string :=
  if (command =? "init")%string then "npx htflow init"
  else if (command =? "validate")%string then "npx htflow validate"
  else if (command =? "build")%string then "npx htflow build"
  else if (command =? "audit --html")%string then "npx htflow audit --html"
  else if (command =? "version")%string then "npx htflow --version"
  else if (command =? "mcp-install")%string then "npx htflow mcp-install"
  else if (command =? "mcp-uninstall")%string then "npx htflow mcp-uninstall"
  else if (command =? "mcp-status")%string then "npx htflow mcp-status"
  else "npx htflow " ++ command ++ folderSuffix folder.

Definition executeHTFlowCommandForPanel (this : Provider) (env : ExecEnv)
    (command successMessage : string) (folder : option string)
  : list Effect :=
  match exec_workspaceFolder env with
  | None => [ShowErrorMessage "No workspace folder found"]
  | Some fsPath =>
      let commandText := panelCommandText command folder in
      let terminal := echoTerminal ("HTFlow: " ++ command) fsPath in
      let duration := exec_endTime env - exec_startTime env in
      ([CreateTerminal terminal;
        TerminalShow terminal;
        TerminalSendText terminal commandText true] ++
       match exec_outcome env with
       | Resolved stdout stderr =>
           let output :=
             str_or (str_or stdout stderr)
                    "Command completed successfully (no output)" in
           let commandData :=
             {| data_command := commandText;
                data_output := output;
                data_error := false;
                data_success := true;
                data_exitCode := VInt 0;
                data_duration := duration |} in
           postIf (_view this) SidebarView (commandResults commandData) ++
           postIf (_currentPanel this) DetachedPanel (commandResults commandData) ++
           [ShowInformationMessage successMessage]
       | Rejected execError =>
           let errorOutput :=
             str_or (str_or (str_or (err_stdout execError) (err_stderr execError))
                            (err_message execError))
                    "Command failed with no output" in
           let commandData :=
             {| data_command := commandText;
                data_output := errorOutput;
                data_error := true;
                data_success := false;
                data_exitCode := js_or (err_code execError) (VInt 1);
                data_duration := duration |} in
           postIf (_view this) SidebarView (commandResults commandData) ++
           postIf (_currentPanel this) DetachedPanel (commandResults commandData) ++
           [ShowErrorMessage
              ("HTFlow command failed: " ++ err_message execError)%string]
       end)%list
  end.

Definition executeHTFlowAuditForPanel (this : Provider) (env : ExecEnv)
    (folder : option string) (successMessage : string) : list Effect :=
  match exec_workspaceFolder env with
  | None => [ShowErrorMessage "No workspace folder found"]
  | Some fsPath =>
      let commandText := "npx htflow audit" ++ folderSuffix folder in
      let terminal := echoTerminal "HTFlow: audit" fsPath in
      ([CreateTerminal terminal;
        TerminalShow terminal;
        TerminalSendText terminal commandText true] ++
       match exec_outcome env with
       | Resolved stdout stderr =>
           let output := str_or (str_or stdout stderr) "No output received" in
           postIf (_view this) SidebarView (auditResults output) ++
           postIf (_currentPanel this) DetachedPanel (auditResults output) ++
           [ShowInformationMessage successMessage]
       | Rejected execError =>
           let errorOutput :=
             str_or (str_or (err_stdout execError) (err_stderr execError))
                    (err_message execError) in
           (if (errorOutput =? "")%string then []
            else
              postIf (_view this) SidebarView (auditResults errorOutput) ++
              postIf (_currentPanel this) DetachedPanel (auditResults errorOutput)) ++
           [ShowErrorMessage
              ("HTFlow audit failed: " ++ err_message execError)%string]
       end)%list
  end.

(** The messages a run posted, with their targets, in order. *)
Fixpoint posted (effects : list Effect) : list (Surface * OutMessage) :=
  match effects with
  | [] => []
  | PostMessage target msg :: rest => (target, msg) :: posted rest
  | _ :: rest => posted rest
  end.

(** The fields a posted result carries: [commandResults] has [output],
    [success] and [exitCode]; [auditResults] has [output] alone. *)
Definition message_output (msg : OutMessage) : option string :=
  match msg with
  | commandResults data => Some (data_output data)
  | auditResults output => Some output
  | _ => None
  end.

Definition message_success (msg : OutMessage) : option bool :=
  match msg with
  | commandResults data => Some (data_success data)
  | _ => None
  end.

Definition message_exitCode (msg : OutMessage) : option JsValue :=
  match msg with
  | commandResults data => Some (data_exitCode data)
  | _ => None
  end.

(* ================================================================= *)
(** ** Message dispatch *)

(** An incoming message: a JavaScript object read by property name; a
    property that is absent reads as [undefined]. *)
Definition Message : Type := string -> JsValue.

(** The call a handler makes for a message. *)
Inductive Operation : Type :=
| DoNothing
| ShowInfo (text : string)
| OpenBrowserPanel
| ExecuteHTFlowCommandForPanel (command successMessage : string)
| ExecuteHTFlowAuditForPanel (folder : JsValue) (successMessage : string)
| ExecuteHTFlowCommandWithFolder (command : string) (folder : JsValue)
    (successMessage : string)
| ReloadWindow
| OpenFile (path : JsValue)
| StartHTFlowServer (port : JsValue) (mode : string) (folder : JsValue)
    (origin : Origin) (hasUserSpecifiedPort : JsValue)
| HandleToolAction (tool : JsValue)
| HandleSettingChange (setting value : JsValue)
| ValidateSpecificFile (path : JsValue)
| ExecuteNpmCommand (command successMessage : string)
| StopServer (serverId port : JsValue)
| OpenUrl (url : JsValue)
| OpenExternal (url : JsValue)
| OpenIndexInBrowser.

(** What a handler does with a message: the line it logs before the
    [switch], and the call. *)
Record Handled : Type := {
  logged : list string;
  operation : Operation
}.

(** [case c:] of [switch (message.command)], a strict comparison. *)
Definition isCommand (message : Message) (c : string) : bool :=
  match message "command" with
  | VStr s => (s =? c)%string
  | _ => false
  end.

Section Dispatch.
Context {B : JsBuiltins}.

(** [`${v}`] *)
Definition template (v : JsValue) : string :=
  match v with
  | VUndefined => "undefined"
  | VNull => "null"
  | _ => toString v
  end.

(** [message.port ? Number(message.port) : d] *)
Definition portOr (message : Message) (d : Z) : JsValue :=
  if truthy (message "port") then VNum (Number (message "port")) else VInt d.

(** [message.port && message.port.toString().trim() !== ""] *)
Definition hasUserPort (message : Message) : JsValue :=
  if truthy (message "port")
  then VBool (negb (trim (toString (message "port")) =? "")%string)
  else message "port".

(** The handler installed by [resolveWebviewView] on the sidebar view. *)
Definition resolveWebviewView_onMessage (message : Message) : Handled :=
  {| logged :=
       "HTFlow: Processing message..." ::
       (if isCommand message "ready" then ["HTFlow panel is ready"] else []);
     operation :=
  if isCommand message "ready" then
    ShowInfo "HTFlow panel loaded successfully!"
  else if isCommand message "openBrowserPanel" then OpenBrowserPanel
  else if isCommand message "htflow.init" then
    ExecuteHTFlowCommandForPanel "init" "HTFlow project initialized successfully!"
  else if isCommand message "htflow.validate" then
    ExecuteHTFlowCommandForPanel "validate" "Validation completed successfully!"
  else if isCommand message "htflow.audit" then
    if truthy (message "displayInPanel") then
      ExecuteHTFlowAuditForPanel (message "folder") "Audit completed successfully!"
    else
      ExecuteHTFlowCommandWithFolder "audit" (message "folder")
        "Audit completed successfully!"
  else if isCommand message "refreshWorkspace" then ReloadWindow
  else if isCommand message "openFile" then
    if truthy (message "path") then OpenFile (message "path") else DoNothing
  else if isCommand message "startLiveServer" then
    StartHTFlowServer (js_or (message "port") (VInt 3000)) "dev" VUndefined
      browser (VBool false)
  else if isCommand message "toolAction" then HandleToolAction (message "tool")
  else if isCommand message "settingChange" then
    HandleSettingChange (message "setting") (message "value")
  else if isCommand message "validateFile" then
    if truthy (message "path") then ValidateSpecificFile (message "path")
    else DoNothing
  else if isCommand message "htflow.audit.html" then
    ExecuteHTFlowCommandForPanel "audit --html"
      "HTML audit report generated successfully!"
  else if isCommand message "htflow.build" then
    ExecuteHTFlowCommandForPanel "build" "Project built successfully!"
  else if isCommand message "htflow.serve.dev" then
    StartHTFlowServer (portOr message 3050) "dev" (message "folder") sidebar
      (hasUserPort message)
  else if isCommand message "htflow.serve.prod" then
    StartHTFlowServer (portOr message 3051) "start" (message "folder") sidebar
      (hasUserPort message)
  else if isCommand message "htflow.serve.custom" then
    StartHTFlowServer (js_or (message "port") (VInt 3000)) "dev" VUndefined
      sidebar (VBool false)
  else if isCommand message "htflow.version" then
    ExecuteHTFlowCommandForPanel "version" "HTFlow version checked successfully!"
  else if isCommand message "htflow.mcp-install" then
    ExecuteHTFlowCommandForPanel "mcp-install"
      "MCP configuration installed successfully!"
  else if isCommand message "htflow.mcp-uninstall" then
    ExecuteHTFlowCommandForPanel "mcp-uninstall"
      "MCP configuration uninstalled successfully!"
  else if isCommand message "htflow.mcp-status" then
    ExecuteHTFlowCommandForPanel "mcp-status" "MCP status checked successfully!"
  else if isCommand message "npm.install" then
    ExecuteNpmCommand "install -g htflow-cli" "HTFlow CLI installed successfully!"
  else if isCommand message "npm.update" then
    ExecuteNpmCommand "install -g htflow-cli@latest"
      "HTFlow CLI updated successfully!"
  else if isCommand message "npm.uninstall" then
    ExecuteNpmCommand "uninstall -g htflow-cli"
      "HTFlow CLI uninstalled successfully!"
  else if isCommand message "stopServer" then
    StopServer (message "serverId") (message "port")
  else if isCommand message "openUrl" then
    if truthy (message "url") then OpenUrl (message "url") else DoNothing
  else if isCommand message "openExternal" then
    if truthy (message "url") then OpenExternal (message "url") else DoNothing
  else if isCommand message "openIndexInBrowser" then OpenIndexInBrowser
  else ShowInfo ("HTFlow: " ++ template (message "command")) |}.

(** The handler installed by [attachMessageHandler] on the detached panel. *)
Definition attachMessageHandler_onMessage (message : Message) : Handled :=
  {| logged :=
       "HTFlow: Processing message (panel)..." ::
       (if isCommand message "ready" then ["HTFlow panel is ready (panel)"] else []);
     operation :=
  if isCommand message "ready" then
    ShowInfo "HTFlow panel loaded successfully!"
  else if isCommand message "openBrowserPanel" then OpenBrowserPanel
  else if isCommand message "htflow.init" then
    ExecuteHTFlowCommandForPanel "init" "HTFlow project initialized successfully!"
  else if isCommand message "htflow.validate" then
    ExecuteHTFlowCommandForPanel "validate" "Validation completed successfully!"
  else if isCommand message "htflow.audit" then
    if truthy (message "displayInPanel") then
      ExecuteHTFlowAuditForPanel (message "folder") "Audit completed successfully!"
    else
      ExecuteHTFlowCommandWithFolder "audit" (message "folder")
        "Audit completed successfully!"
  else if isCommand message "refreshWorkspace" then ReloadWindow
  else if isCommand message "openFile" then
    if truthy (message "path") then OpenFile (message "path") else DoNothing
  else if isCommand message "startLiveServer" then
    StartHTFlowServer (js_or (message "port") (VInt 3000)) "dev" VUndefined
      browser (VBool false)
  else if isCommand message "toolAction" then HandleToolAction (message "tool")
  else if isCommand message "settingChange" then
    HandleSettingChange (message "setting") (message "value")
  else if isCommand message "validateFile" then
    if truthy (message "path") then ValidateSpecificFile (message "path")
    else DoNothing
  else if isCommand message "htflow.audit.html" then
    ExecuteHTFlowCommandForPanel "audit --html"
      "HTML audit report generated successfully!"
  else if isCommand message "htflow.build" then
    ExecuteHTFlowCommandForPanel "build" "Project built successfully!"
  else if isCommand message "htflow.serve.dev" then
    StartHTFlowServer (portOr message 3050) "dev" (message "folder") sidebar
      (hasUserPort message)
  else if isCommand message "htflow.serve.prod" then
    StartHTFlowServer (portOr message 3051) "start" (message "folder") sidebar
      (hasUserPort message)
  else if isCommand message "htflow.serve.custom" then
    StartHTFlowServer (js_or (message "port") (VInt 3000)) "dev" VUndefined
      sidebar (VBool false)
  else if isCommand message "htflow.version" then
    ExecuteHTFlowCommandForPanel "version" "HTFlow version checked successfully!"
  else if isCommand message "htflow.mcp-install" then
    ExecuteHTFlowCommandForPanel "mcp-install"
      "MCP configuration installed successfully!"
  else if isCommand message "htflow.mcp-uninstall" then
    ExecuteHTFlowCommandForPanel "mcp-uninstall"
      "MCP configuration uninstalled successfully!"
  else if isCommand message "htflow.mcp-status" then
    ExecuteHTFlowCommandForPanel "mcp-status" "MCP status checked successfully!"
  else if isCommand message "npm.install" then
    ExecuteNpmCommand "install -g htflow-cli" "HTFlow CLI installed successfully!"
  else if isCommand message "npm.update" then
    ExecuteNpmCommand "install -g htflow-cli@latest"
      "HTFlow CLI updated successfully!"
  else if isCommand message "npm.uninstall" then
    ExecuteNpmCommand "uninstall -g htflow-cli"
      "HTFlow CLI uninstalled successfully!"
  else if isCommand message "stopServer" then
    StopServer (message "serverId") (message "port")
  else if isCommand message "openUrl" then
    if truthy (message "url") then OpenUrl (message "url") else DoNothing
  else if isCommand message "openExternal" then
    if truthy (message "url") then OpenExternal (message "url") else DoNothing
  else if isCommand message "openIndexInBrowser" then OpenIndexInBrowser
  else ShowInfo ("HTFlow: " ++ template (message "command")) |}.

(** The [startLiveServer] case of the handler that [openBrowserPanel]
    installs on the browser panel: the call it makes. *)
Definition openBrowserPanel_startLiveServer (message : Message) : Operation :=
  let parsedPort := Number (message "port") in
  let requestedPort :=
    match parsedPort with
    | Finite q => clampPort q
    | _ => 3000
    end in
  let requestedMode :=
    match message "mode" with
    | VStr s => if (trim s =? "")%string then "dev" else trim s
    | _ => "dev"
    end in
  StartHTFlowServer (VInt requestedPort) requestedMode (message "folder")
    browser (VBool true).

End Dispatch.

(* ================================================================= *)
(** ** Runs of the provider *)

(** One step of the provider's life: a method call or a surface that comes
    or goes. *)
Inductive Step : Provider -> Provider -> Prop :=
| step_start this env port mode folder origin hasUserSpecifiedPort :
    Step this
      (fst (fst (startHTFlowServer this env port mode folder origin
                   hasUserSpecifiedPort)))
| step_stop this serverId port :
    Step this (fst (fst (stopServer this serverId port)))
| step_dispose this :
    Step this (fst (fst (dispose this)))
| step_browserReady this :
    Step this (fst (browserReady this))
| step_view this b :
    Step this (set_view b this)
| step_currentPanel this b :
    Step this (set_currentPanel b this)
| step_openBrowserPanel this :
    Step this (set_browserPanel (Some []) this)
| step_closeBrowserPanel this :
    Step this (set_browserPanel None this).

Inductive reachable : Provider -> Prop :=
| reachable_new : reachable newProvider
| reachable_step this this' :
    reachable this -> Step this this' -> reachable this'.

(** A run of start requests that all name the same port and mode; each
    request has its own folder, origin, port flag and host answers. *)
Record StartRequest : Type := {
  req_env : HostEnv;
  req_folder : JsValue;
  req_origin : Origin;
  req_hasUserSpecifiedPort : JsValue
}.

Fixpoint startAll (this : Provider) (port : JsValue) (mode : string)
    (requests : list StartRequest) : Provider * list StartResult :=
  match requests with
  | [] => (this, [])
  | r :: rest =>
      let '(this1, result, _) :=
        startHTFlowServer this (req_env r) port mode (req_folder r)
          (req_origin r) (req_hasUserSpecifiedPort r) in
      let '(this2, results) := startAll this1 port mode rest in
      (this2, result :: results)
  end.

(** The registry entries that serve a given port in a given mode. *)
Definition entriesFor (port : Z) (mode : string) (this : Provider)
  : list (string * RunningServer.t) :=
  filter (fun e => (RunningServer.port (snd e) =? port) &&
                   (RunningServer.mode (snd e) =? mode)%string)
         (_runningServers this).

(** The port and mode an entry serves; no two entries of the registry agree
    on both. *)
Definition portMode (e : string * RunningServer.t) : Z * string :=
  (RunningServer.port (snd e), RunningServer.mode (snd e)).

Definition uniquePortMode (this : Provider) : Prop :=
  NoDup (map portMode (_runningServers this)).

(** The live-preview target is absent (or empty) or a key of the registry. *)
Definition targetConsistent (this : Provider) : Prop :=
  match _browserLiveServerId this with
  | Some serverId =>
      serverId = "" \/ Map_has serverId (_runningServers this) = true
  | None => True
  end.

(** The surfaces that receive the results of a captured command: the
    sidebar view and the detached panel, each when it exists. *)
Definition resultSurfaces (this : Provider) : list Surface :=
  ((if _view this then [SidebarView] else []) ++
   (if _currentPanel this then [DetachedPanel] else []))%list.

(** The fallback chain in the words of the specification: the first
    candidate that is not empty, and [otherwise] when all are empty. *)
Fixpoint firstNonEmpty (candidates : list string) (otherwise : string) : string :=
  match candidates with
  | [] => otherwise
  | c :: rest => if (c =? "")%string then firstNonEmpty rest otherwise else c
  end.

(** The [case] labels of the [switch] of the sidebar and panel handlers. *)
Definition commandNames : list string :=
  ["ready"; "openBrowserPanel"; "htflow.init"; "htflow.validate";
   "htflow.audit"; "refreshWorkspace"; "openFile"; "startLiveServer";
   "toolAction"; "settingChange"; "validateFile"; "htflow.audit.html";
   "htflow.build"; "htflow.serve.dev"; "htflow.serve.prod";
   "htflow.serve.custom"; "htflow.version"; "htflow.mcp-install";
   "htflow.mcp-uninstall"; "htflow.mcp-status"; "npm.install"; "npm.update";
   "npm.uninstall"; "stopServer"; "openUrl"; "openExternal";
   "openIndexInBrowser"].

(** The texts a run sent to terminals, in order. *)
Fixpoint sentTexts (effects : list Effect) : list string :=
  match effects with
  | [] => []
  | TerminalSendText _ text _ :: rest => text :: sentTexts rest
  | _ :: rest => sentTexts rest
  end.

(* ================================================================= *)
(** ** Sample hosts, providers and messages *)

(** A host with an open workspace whose terminals stop cleanly. *)
Definition sampleEnv : HostEnv := {|
  workspaceFolder := Some "/work/site";
  dateNow := 1700000000000;
  newDate := 1700000000000;
  newTerminalInterruptThrows := None;
  newTerminalDisposeThrows := None
|}.

(** The same host a second later. *)
Definition laterEnv : HostEnv := {|
  workspaceFolder := Some "/work/site";
  dateNow := 1700000001000;
  newDate := 1700000001000;
  newTerminalInterruptThrows := None;
  newTerminalDisposeThrows := None
|}.

(** A host whose new terminal refuses to be disposed later on. *)
Definition stubbornEnv : HostEnv := {|
  workspaceFolder := Some "/work/site";
  dateNow := 1700000000000;
  newDate := 1700000000000;
  newTerminalInterruptThrows := Some "write after end";
  newTerminalDisposeThrows := Some "terminal is busy"
|}.

(** A provider with both panels open. *)
Definition openProvider : Provider :=
  set_browserPanel (Some []) (set_view true newProvider).

(** [openProvider] after the browser panel started a dev server. *)
Definition liveProvider : Provider :=
  fst (fst (startHTFlowServer openProvider sampleEnv (VInt 3000) "dev"
              VUndefined browser (VBool true))).

Definition liveId : string := "dev-3000-1700000000000".

(** [newProvider] after a start on the stubborn host. *)
Definition stubbornProvider : Provider :=
  fst (fst (startHTFlowServer newProvider stubbornEnv (VInt 3050) "dev"
              VUndefined sidebar (VBool false))).

Definition stubbornId : string := "dev-3050-1700000000000".

(** Two requests for a dev server on port 3050: one from the sidebar, and
    one from the browser panel a second later. *)
Definition twoRequests : list StartRequest :=
  [{| req_env := sampleEnv; req_folder := VUndefined; req_origin := sidebar;
      req_hasUserSpecifiedPort := VBool false |};
   {| req_env := laterEnv; req_folder := VStr "site"; req_origin := browser;
      req_hasUserSpecifiedPort := VBool true |}].

(** A message given by its properties. *)
Fixpoint messageOf (properties : list (string * JsValue)) : Message :=
  fun name =>
    match properties with
    | [] => VUndefined
    | (k, v) :: rest => if (k =? name)%string then v else messageOf rest name
    end.

(** A message with a command that no handler knows, and a
    [startLiveServer] message that asks for mode "start" in the folder
    "site" on port 8080. *)
Definition pingMessage : Message := messageOf [("command", VStr "ping")].

Definition liveMessage : Message :=
  messageOf [("command", VStr "startLiveServer"); ("port", VInt 8080);
             ("mode", VStr "start"); ("folder", VStr "site")].

(** Conversions that read an unsigned decimal integer and print an integer
    part, enough for the sample messages. *)
Fixpoint digitsValue (acc : Z) (s : string) : option Z :=
  match s with
  | EmptyString => Some acc
  | String c r =>
      let n := Z.of_nat (nat_of_ascii c) in
      if (48 <=? n) && (n <=? 57) then digitsValue (10 * acc + (n - 48)) r
      else None
  end.

Definition decimalBuiltins : JsBuiltins := {|
  StringToNumber := fun s =>
    match digitsValue 0 (trim s) with
    | Some z => Finite (inject_Z z)
    | None => NaN
    end;
  NumberToString := fun n =>
    match n with
    | Finite q => string_of_Z (Qfloor q)
    | NaN => "NaN"
    | PosInfinity => "Infinity"
    | NegInfinity => "-Infinity"
    end
|}.

(** A failed audit run that printed to standard error and exited with 2. *)
Definition failedAudit : ExecEnv := {|
  exec_workspaceFolder := Some "/work/site";
  exec_outcome :=
    Rejected {| err_stdout := ""; err_stderr := "audit: 3 problems";
                err_message := "Command failed: npx htflow audit";
                err_code := VInt 2 |};
  exec_startTime := 1700000000000;
  exec_endTime := 1700000000750
|}.

(** A run that succeeded and printed only to standard error. *)
Definition quietRun : ExecEnv := {|
  exec_workspaceFolder := Some "/work/site";
  exec_outcome := Resolved "" "warning: nothing to do";
  exec_startTime := 1700000000000;
  exec_endTime := 1700000000100
|}.

(* ================================================================= *)
(** ** The browser panel: its start and stop handlers *)

Section BrowserPanelHandlers.
Context {B : JsBuiltins}.




(** [Number.isFinite(parsedPort) ? ... : undefined] of the [stopLiveServer]
    case. *)
Definition resolvedPortOf (message : Message) : option Z :=
  match Number (message "port") with
  | Finite q => Some (clampPort q)
  | _ => None
  end.

(** An identifier that is a string and not empty, as [||] and [!] see it. *)
Definition truthyId (i : option string) : option string :=
  match i with
  | Some s => if (s =? "")%string then None else Some s
  | None => None
  end.

(** [(typeof message.serverId === "string" && message.serverId) ||
     this._browserLiveServerId ||
     (typeof resolvedPort === "number"
        ? this.findRunningServerByPort(resolvedPort)?.serverId : undefined)],
    read for its truth: [None] when every operand is empty or missing. *)
Definition candidateIdOf (this : Provider) (message : Message) : option string :=
  match truthyId (match message "serverId" with
                  | VStr s => Some s
                  | _ => None
                  end) with
  | Some s => Some s
  | None =>
      match truthyId (_browserLiveServerId this) with
      | Some s => Some s
      | None =>
          match resolvedPortOf message with
          | Some resolvedPort =>
              truthyId (option_map fst
                          (findRunningServerByPort this resolvedPort None))
          | None => None
          end
      end
  end.

(** The [stopLiveServer] case of the browser panel. *)
Definition openBrowserPanel_onStopLiveServer (this : Provider)
    (message : Message) : Provider * list Effect :=
  match candidateIdOf this message with
  | None =>
      (this,
       [PostMessage BrowserPanel
          (liveServerError "No active HTFlow live server to stop")])
  | Some candidateId =>
      let '(this', stopped, effects) :=
        stopServer this candidateId (resolvedPortOf message) in
      (this',
       (effects ++
        if stopped then []
        else [PostMessage BrowserPanel
                (liveServerError "Unable to stop the HTFlow live server")])%list)
  end.

End BrowserPanelHandlers.

(* ================================================================= *)
(** ** Commands that only run in a terminal *)

(** [cwd: workspaceFolder?.uri.fsPath]; a missing working directory reads
    as the empty path. *)
Definition cwdOf (workspace : option string) : string :=
  match workspace with
  | Some fsPath => fsPath
  | None => ""
  end.

(** [executeHTFlowCommandWithFolder]: the command is echoed in a terminal
    named "HTFlow CLI"; nothing is captured. *)
Definition executeHTFlowCommandWithFolder (workspace : option string)
    (command : string) (folder : option string) (successMessage : string)
  : list Effect :=
  let terminal := echoTerminal "HTFlow CLI" (cwdOf workspace) in
  let blank :=
    match folder with
    | Some f => (f =? "")%string || (trim f =? "")%string
    | None => true
    end in
  let trimmed := match folder with Some f => trim f | None => "" end in
  let commandText :=
    if (command =? "audit")%string then
      if blank then "npx htflow audit" else "npx htflow audit " ++ trimmed
    else
      if blank then "npx htflow " ++ command
      else "npx htflow " ++ command ++ " " ++ trimmed in
  [CreateTerminal terminal;
   TerminalShow terminal;
   TerminalSendText terminal commandText true;
   ShowInformationMessage successMessage].

(* ================================================================= *)
(** ** [extension.ts]: the lines that the minimap decorates *)

(** ASCII lower case, as the [i] flag folds it. *)
Definition toLower (c : ascii) : ascii :=
  let n := nat_of_ascii c in
  if (Nat.leb 65 n && Nat.leb n 90)%bool then ascii_of_nat (n + 32) else c.

Fixpoint lower (s : string) : string :=
  match s with
  | EmptyString => EmptyString
  | String c r => String (toLower c) (lower r)
  end.

(** [s] contains [pattern]. *)
Fixpoint includes (pattern s : string) : bool :=
  (String.prefix pattern s ||
   match s with
   | EmptyString => false
   | String _ r => includes pattern r
   end)%bool.

(** [/pattern/i.test(text)] for a pattern without operators. *)
Definition testIgnoreCase (pattern text : string) : bool :=
  includes (lower pattern) (lower text).

Definition htflowPatterns : list string :=
  ["data-ht-"; "ht-"; "htflow"; "@htflow"; "<!-- HTFlow"; "HTFlow"].

(** [new vscode.Range(startLine, startCharacter, endLine, endCharacter)] *)
Record Range : Type := {
  startLine : nat;
  startCharacter : nat;
  endLine : nat;
  endCharacter : nat
}.

(** The loop of [findHTFlowLines] from line [lineNumber] on. *)
Fixpoint findHTFlowLinesFrom (lineNumber : nat) (lines : list string)
  : list Range :=
  match lines with
  | [] => []
  | text :: rest =>
      ((if existsb (fun pattern => testIgnoreCase pattern text) htflowPatterns
        then [{| startLine := lineNumber; startCharacter := 0;
                 endLine := lineNumber;
                 endCharacter := String.length text |}]
        else []) ++
       findHTFlowLinesFrom (S lineNumber) rest)%list
  end.

(** [findHTFlowLines(document)], the document given by its lines. *)
Definition findHTFlowLines (document : list string) : list Range :=
  findHTFlowLinesFrom 0 document.

(** The lines of a document with their numbers, from [lineNumber] on. *)
Fixpoint numbered (lineNumber : nat) (lines : list string)
  : list (nat * string) :=
  match lines with
  | [] => []
  | text :: rest => (lineNumber, text) :: numbered (S lineNumber) rest
  end.

(* ================================================================= *)
(** ** Invariants of the runs *)

(** The identifier [startHTFlowServer] gives a server. *)
Definition serverIdFor (mode : string) (port now : Z) : string :=
  mode ++ "-" ++ string_of_Z port ++ "-" ++ string_of_Z now.

(** Every registry key is the identifier of the mode and port of its
    entry, for some launch time. *)
Definition keysNameTheirEntry (this : Provider) : Prop :=
  forall serverId server,
    In (serverId, server) (_runningServers this) ->
    exists now,
      serverId =
        serverIdFor (RunningServer.mode server) (RunningServer.port server) now.

(** The ports the browser panel forwards. *)
Definition forwardedPorts (this : Provider) : list Z :=
  match _browserPanel this with
  | Some mappings => map extensionHostPort mappings
  | None => []
  end.

(** Every mapping forwards a port to itself and no port is mapped twice. *)
Definition mappingsWellFormed (this : Provider) : Prop :=
  match _browserPanel this with
  | Some mappings =>
      Forall (fun mapping => webviewPort mapping = extensionHostPort mapping)
             mappings /\
      NoDup (map extensionHostPort mappings)
  | None => True
  end.

(** A host with no workspace folder open. *)
Definition closedEnv : HostEnv := {|
  workspaceFolder := None;
  dateNow := 1700000000000;
  newDate := 1700000000000;
  newTerminalInterruptThrows := None;
  newTerminalDisposeThrows := None
|}.

(** Two requests for a dev server on port 3050: the first arrives while no
    workspace folder is open, the second a second later with one open. *)
Definition lateWorkspaceRequests : list StartRequest :=
  [{| req_env := closedEnv; req_folder := VUndefined; req_origin := sidebar;
      req_hasUserSpecifiedPort := VBool false |};
   {| req_env := laterEnv; req_folder := VUndefined; req_origin := sidebar;
      req_hasUserSpecifiedPort := VBool false |}].

(** Two requests for a dev server on port 3050: the first names a folder
    that is a number, the second none. *)
Definition badFolderRequests : list StartRequest :=
  [{| req_env := sampleEnv; req_folder := VInt 5; req_origin := sidebar;
      req_hasUserSpecifiedPort := VBool false |};
   {| req_env := laterEnv; req_folder := VUndefined; req_origin := sidebar;
      req_hasUserSpecifiedPort := VBool false |}].

(** [liveProvider] after the sidebar started a second server, on port 3051
    in mode start, a second later. *)
Definition twoServerProvider : Provider :=
  fst (fst (startHTFlowServer liveProvider laterEnv (VInt 3051) "start"
              VUndefined sidebar (VBool false))).

Definition secondId : string := "start-3051-1700000001000".

(** What attempting the interrupt leaves in the effects: the text U+0003
    sent to the terminal without a new line or, when sending it throws, the
    line that reports the failure. *)
Definition interruptAttempt (serverId : string) (t : Terminal.t) : list Effect :=
  match Terminal.interruptThrows t with
  | None => [TerminalSendText t (String "003"%char "") false]
  | Some _ =>
      [ConsoleLog ("HTFlow: Unable to send interrupt to server " ++
                   serverId ++ ":")]
  end.

(** The surfaces that are told when a server starts or stops: the sidebar
    view and the browser panel, each when it exists. *)
Definition lifecycleSurfaces (this : Provider) : list Surface :=
  ((if _view this then [SidebarView] else []) ++
   (if hasBrowserPanel this then [BrowserPanel] else []))%list.

(** The payload of [serverStarted] for a server. *)
Definition payloadOf (server : RunningServer.t) : ServerPayload :=
  {| payload_port := RunningServer.port server;
     payload_mode := RunningServer.mode server;
     payload_folder := RunningServer.folder server;
     payload_startTime := RunningServer.startTime server |}.

(** The browser openings a run scheduled: delay and address. *)
Fixpoint scheduled (effects : list Effect) : list (Z * string) :=
  match effects with
  | [] => []
  | OpenAfter delay url :: rest => (delay, url) :: scheduled rest
  | _ :: rest => scheduled rest
  end.

(** The server of [liveProvider]. *)
Definition liveServer : RunningServer.t :=
  RunningServer.make 3000 "dev" "" 1700000000000
    (Terminal.make "HTFlow Server (dev:3000)" "/work/site" None None) browser.

(** A line mentions HTFlow when, in lower case, it contains "ht-" or
    "htflow". *)
Definition mentionsHTFlow (text : string) : bool :=
  (includes "ht-" (lower text) || includes "htflow" (lower text))%bool.

(** The range of a whole line. *)
Definition lineRange (line : nat * string) : Range :=
  {| startLine := fst line; startCharacter := 0;
     endLine := fst line; endCharacter := String.length (snd line) |}.

(** A [htflow.serve.dev] message that names a folder and no port. *)
Definition serveDevMessage : Message :=
  messageOf [("command", VStr "htflow.serve.dev"); ("folder", VStr " site ")].


Definition sampleDocument : list string :=
  ["<div class=" ++ String "034"%char "HT-grid" ++ String "034"%char ">";
   "plain text";
   "<!-- HTFlow section -->"].

(* ================================================================= *)
(** * Properties *)

(** ** Maps *)

Section JsMapFacts.
Context {V : Type}.
Implicit Types (m : JsMap V) (k : string) (v : V).

Lemma Map_get_delete_same k m : Map_get k (Map_delete k m) = None.
Proof.
  induction m as [|[k' v'] r IH]; simpl; auto.
  destruct (k' =? k)%string eqn:E; simpl; auto.
  now rewrite E.
Qed.

Lemma Map_get_delete_other k k' m :
  k <> k' -> Map_get k' (Map_delete k m) = Map_get k' m.
Proof.
  intros Hne. induction m as [|[k0 v0] r IH]; simpl; auto.
  destruct (k0 =? k)%string eqn:E; simpl.
  - apply String.eqb_eq in E. subst k0.
    destruct (k =? k')%string eqn:E'; auto.
    apply String.eqb_eq in E'. contradiction.
  - now rewrite IH.
Qed.

Lemma Map_has_delete_same k m : Map_has k (Map_delete k m) = false.
Proof. unfold Map_has. now rewrite Map_get_delete_same. Qed.

Lemma Map_has_delete_other k k' m :
  k <> k' -> Map_has k' (Map_delete k m) = Map_has k' m.
Proof. intros. unfold Map_has. now rewrite Map_get_delete_other. Qed.

Lemma Map_get_set_same k v m : Map_get k (Map_set k v m) = Some v.
Proof.
  induction m as [|[k' v'] r IH]; simpl.
  - now rewrite String.eqb_refl.
  - destruct (k' =? k)%string eqn:E; simpl.
    + now rewrite String.eqb_refl.
    + now rewrite E.
Qed.

Lemma Map_get_set_other k k' v m :
  k <> k' -> Map_get k' (Map_set k v m) = Map_get k' m.
Proof.
  intros Hne. induction m as [|[k0 v0] r IH]; simpl.
  - destruct (k =? k')%string eqn:E; auto.
    apply String.eqb_eq in E. contradiction.
  - destruct (k0 =? k)%string eqn:E; simpl.
    + apply String.eqb_eq in E. subst k0.
      destruct (k =? k')%string eqn:E'; auto.
      apply String.eqb_eq in E'. contradiction.
    + now rewrite IH.
Qed.

Lemma Map_has_set_same k v m : Map_has k (Map_set k v m) = true.
Proof. unfold Map_has. now rewrite Map_get_set_same. Qed.

Lemma Map_has_set_mono k k' v m :
  Map_has k' m = true -> Map_has k' (Map_set k v m) = true.
Proof.
  unfold Map_has. destruct (String.eqb_spec k k') as [->|Hne].
  - now rewrite Map_get_set_same.
  - now rewrite Map_get_set_other.
Qed.
End JsMapFacts.

(** ** Field updates leave the other fields alone *)

Lemma ensureBrowserPortMapping_fields this port :
  _runningServers (ensureBrowserPortMapping this port) = _runningServers this /\
  _terminals (ensureBrowserPortMapping this port) = _terminals this /\
  _browserLiveServerId (ensureBrowserPortMapping this port) =
    _browserLiveServerId this /\
  _view (ensureBrowserPortMapping this port) = _view this.
Proof.
  unfold ensureBrowserPortMapping.
  destruct (_browserPanel this) as [mappings|]; auto.
  destruct (existsb _ mappings); auto.
Qed.

(** ** Port normalization *)

Lemma clampPort_range q : 1 <= clampPort q <= 65535.
Proof. unfold clampPort. lia. Qed.

Lemma defaultPort_cases mode :
  (mode = "dev" /\ defaultPort mode = 3050) \/
  (mode = "start" /\ defaultPort mode = 3051) \/
  (mode <> "dev" /\ mode <> "start" /\ defaultPort mode = 3000).
Proof.
  unfold defaultPort.
  destruct (String.eqb_spec mode "dev") as [->|Hd]; auto.
  destruct (String.eqb_spec mode "start") as [->|Hs]; auto.
Qed.

Lemma Qfloor_between q n :
  (inject_Z n <= q)%Q -> (q < inject_Z (n + 1))%Q -> Qfloor q = n.
Proof.
  intros Hle Hlt.
  assert (H1 : n <= Qfloor q)
    by (rewrite <- (Qfloor_Z n); now apply Qfloor_resp_le).
  assert (H2 : Qfloor q < n + 1).
  { rewrite Zlt_Qlt. eapply Qle_lt_trans; [apply Qfloor_le|exact Hlt]. }
  lia.
Qed.

(** C2, as the code has it: a finite port is clamped into [1, 65535] after
    [Math.floor]: a port between the integer n and n + 1 becomes n when n is
    in the range, 1 when n is below it and 65535 when n is above it. So a
    whole port in the range is kept, port 0 becomes 1 and port 99999 becomes
    65535 in every mode. A value that is not a finite number (a string, also
    the empty one, [NaN], an infinity, [null]) becomes the default of the
    mode, which is 3050 for "dev", 3051 for "start" and 3000 for any other
    mode; a port that is left out is 3000 by the default of the parameter;
    and the server that is started is recorded under the normalized port. *)
Theorem port_normalization (mode : string) :
  normalizePort (portParameter (VInt 0)) mode = 1 /\
  normalizePort (portParameter (VInt 99999)) mode = 65535 /\
  (forall q, 1 <= normalizePort (portParameter (VNum (Finite q))) mode <= 65535) /\
  (forall q n,
     (inject_Z n <= q)%Q -> (q < inject_Z (n + 1))%Q ->
     normalizePort (portParameter (VNum (Finite q))) mode =
       Z.max 1 (Z.min 65535 n)) /\
  (forall z, 1 <= z <= 65535 ->
     normalizePort (portParameter (VInt z)) mode = z) /\
  (forall s, normalizePort (portParameter (VStr s)) mode = defaultPort mode) /\
  normalizePort (portParameter (VNum NaN)) mode = defaultPort mode /\
  normalizePort (portParameter (VNum PosInfinity)) mode = defaultPort mode /\
  normalizePort (portParameter (VNum NegInfinity)) mode = defaultPort mode /\
  normalizePort (portParameter VNull) mode = defaultPort mode /\
  normalizePort (portParameter VUndefined) mode = 3000 /\
  defaultPort "dev" = 3050 /\
  defaultPort "start" = 3051 /\
  (mode <> "dev" -> mode <> "start" -> defaultPort mode = 3000) /\
  (forall this env port folder origin hasUserSpecifiedPort serverId server,
     snd (fst (startHTFlowServer this env port mode folder origin
                 hasUserSpecifiedPort)) = Some (serverId, server) ->
     RunningServer.port server = normalizePort (portParameter port) mode \/
     findRunningServerByPort this (normalizePort (portParameter port) mode)
       (Some mode) = Some (serverId, server)).
Proof.
  split; [reflexivity|]. split; [reflexivity|].
  split; [intros q; apply clampPort_range|].
  split.
  { intros q n Hle Hlt. cbn [portParameter normalizePort]. unfold clampPort.
    now rewrite (Qfloor_between q n Hle Hlt). }
  split.
  { intros z Hz. unfold VInt. cbn [portParameter normalizePort].
    unfold clampPort. rewrite Qfloor_Z. lia. }
  repeat split; try reflexivity.
  - intros Hd Hs.
    destruct (defaultPort_cases mode) as [[? _]|[[? _]|(_ & _ & ?)]];
      congruence.
  - intros this env port folder origin has serverId server.
    unfold startHTFlowServer.
    destruct (findRunningServerByPort this _ (Some mode)) as [[i s]|] eqn:F.
    + destruct (Origin_eqb origin browser); simpl; intros [= <- <-]; auto.
    + destruct (workspaceFolder env); simpl; [|discriminate].
      destruct (folderValueOf folder); simpl; [|discriminate].
      intros [= <- <-]. now left.
Qed.

(** C2, witness: the mode "preview", which is neither "dev" nor "start",
    and the ports 8080.5, 8080 and 0. *)
Lemma port_normalization_witness :
  defaultPort "preview" = 3000 /\
  normalizePort (portParameter (VStr "")) "preview" = 3000 /\
  normalizePort (portParameter (VInt 0)) "preview" = 1 /\
  normalizePort (portParameter (VNum (Finite (16161 # 2)))) "preview" = 8080 /\
  normalizePort (portParameter (VInt 8080)) "preview" = 8080.
Proof.
  destruct (port_normalization "preview")
    as (H0 & _ & _ & Hf & Hz & Hs & _ & _ & _ & _ & _ & _ & _ & Hd & _).
  split; [apply Hd; discriminate|]. split; [exact (Hs "")|].
  split; [exact H0|]. split.
  - apply (Hf (16161 # 2)%Q 8080); [discriminate|reflexivity].
  - apply Hz. lia.
Defined.

(** C2, counterexample: started with port 0 in mode "dev" on an empty
    registry, the server is recorded with port 1, and with port 99999 with
    port 65535, while the default of "dev" is 3050. *)
Lemma port_zero_is_clamped :
  option_map (fun r => RunningServer.port (snd r))
    (snd (fst (startHTFlowServer newProvider sampleEnv (VInt 0) "dev"
                 VUndefined sidebar (VBool false)))) = Some 1 /\
  option_map (fun r => RunningServer.port (snd r))
    (snd (fst (startHTFlowServer newProvider sampleEnv (VInt 99999) "dev"
                 VUndefined sidebar (VBool false)))) = Some 65535 /\
  defaultPort "dev" = 3050.
Proof. repeat split; vm_compute; reflexivity. Qed.

(** ** [stopServer] *)

Lemma known_false this serverId :
  known this serverId = false <->
  Map_get serverId (_runningServers this) = None /\
  Map_has serverId (_terminals this) = false.
Proof.
  unfold known, notFound, Map_has.
  destruct (Map_get serverId (_runningServers this));
    destruct (Map_get serverId (_terminals this)); simpl; split;
    intuition congruence.
Qed.

Lemma known_terminalOf this serverId :
  known this serverId = true -> exists t, terminalOf this serverId = Some t.
Proof.
  unfold known, notFound, terminalOf, Map_has, nullish.
  destruct (Map_get serverId (_terminals this)) as [t|]; [eauto|].
  destruct (Map_get serverId (_runningServers this)) as [s|]; simpl;
    [eauto|discriminate].
Qed.

Lemma isTarget_fields this serverId m1 m2 :
  isTarget (set_runningServers m1 (set_terminals m2 this)) serverId =
  isTarget this serverId.
Proof. reflexivity. Qed.

(** The three ways [stopServer] ends. *)
Lemma stopServer_cases this serverId port :
  (known this serverId = false /\
   stopServer this serverId port =
     (this, false,
      [ConsoleWarn ("HTFlow: No running server found for ID " ++ serverId)]))
  \/
  (exists t errorMessage effects,
     known this serverId = true /\
     terminalOf this serverId = Some t /\
     Terminal.disposeThrows t = Some errorMessage /\
     stopServer this serverId port = (this, false, effects) /\
     posted effects = [] /\
     In (ShowErrorMessage ("Failed to stop HTFlow server: " ++ errorMessage))
        effects)
  \/
  (exists t this' effects,
     known this serverId = true /\
     terminalOf this serverId = Some t /\
     Terminal.disposeThrows t = None /\
     stopServer this serverId port = (this', true, effects) /\
     _runningServers this' = Map_delete serverId (_runningServers this) /\
     _terminals this' = Map_delete serverId (_terminals this) /\
     _browserLiveServerId this' =
       (if isTarget this serverId then None else _browserLiveServerId this) /\
     In (TerminalDispose t) effects /\
     (forall e, Terminal.interruptThrows t = Some e ->
        In (ConsoleLog ("HTFlow: Unable to send interrupt to server " ++
                        serverId ++ ":")) effects)).
Proof.
  destruct (known this serverId) eqn:K.
  - right. destruct (known_terminalOf _ _ K) as [t Ht].
    unfold known in K. apply negb_true_iff in K.
    unfold stopServer. rewrite K, Ht.
    destruct (Terminal.disposeThrows t) as [msg|] eqn:D.
    + left. exists t, msg. eexists. repeat split; eauto.
      * destruct (Terminal.interruptThrows t); reflexivity.
      * apply in_or_app. right. simpl. auto.
    + right. exists t. do 2 eexists. split; [reflexivity|].
      split; [reflexivity|]. split; [exact D|].
      split; [reflexivity|]. rewrite isTarget_fields.
      repeat split.
      * destruct (isTarget this serverId); reflexivity.
      * destruct (isTarget this serverId); reflexivity.
      * destruct (isTarget this serverId); reflexivity.
      * apply in_or_app. left. apply in_or_app. right. simpl. auto.
      * intros e He. apply in_or_app. left. apply in_or_app. left.
        rewrite He. simpl. auto.
  - left. split; auto. unfold known in K. apply negb_false_iff in K.
    unfold stopServer. now rewrite K.
Qed.

Lemma posted_none effects :
  posted effects = [] -> forall target msg, ~ In (PostMessage target msg) effects.
Proof.
  induction effects as [|e r IH]; simpl; [tauto|].
  intros H target msg [Heq|Hin].
  - subst e. discriminate.
  - destruct e; try discriminate; exact (IH H target msg Hin).
Qed.

Lemma stopServer_known_effects this serverId port t :
  known this serverId = true ->
  terminalOf this serverId = Some t ->
  match Terminal.disposeThrows t with
  | None =>
      exists this' rest,
        stopServer this serverId port =
          (this', true,
           (interruptAttempt serverId t ++ TerminalDispose t :: rest)%list)
  | Some errorMessage =>
      stopServer this serverId port =
        (this, false,
         (interruptAttempt serverId t ++
          [ConsoleError ("HTFlow: Error stopping server " ++ serverId ++ ":")%string;
           ShowErrorMessage
             ("Failed to stop HTFlow server: " ++ errorMessage)%string])%list)
  end.
Proof.
  intros K Ht. unfold known in K. apply negb_true_iff in K.
  unfold stopServer. rewrite K, Ht. fold (interruptAttempt serverId t).
  destruct (Terminal.disposeThrows t) as [msg|]; [reflexivity|].
  do 2 eexists. rewrite <- !app_assoc. reflexivity.
Qed.

Lemma interruptAttempt_sends serverId t :
  Terminal.interruptThrows t = None ->
  forall rest,
    In (TerminalSendText t (String "003"%char "") false)
       (interruptAttempt serverId t ++ rest).
Proof.
  intros N rest. unfold interruptAttempt. rewrite N. simpl. auto.
Qed.

(** C4, as the code has it: for an identifier with a registry entry or a
    terminal handle, [stopServer] first attempts the interrupt: it sends
    U+0003 to the terminal, and when sending throws, the failure is logged
    and not fatal. It then disposes the terminal. When the disposal returns,
    the registry entry and the terminal handle are removed and the result is
    [true]. When the disposal throws, the error is logged and shown after
    the attempt, the provider is left as it was and the result is [false].
    So the result is [false] only for an identifier with neither a registry
    entry nor a terminal handle, or when the disposal throws. *)
Theorem stopServer_outcome this serverId port :
  (known this serverId = true ->
   exists t, terminalOf this serverId = Some t /\
     match Terminal.disposeThrows t with
     | None =>
         exists this' effects,
           stopServer this serverId port = (this', true, effects) /\
           Map_has serverId (_runningServers this') = false /\
           Map_has serverId (_terminals this') = false /\
           In (TerminalDispose t) effects /\
           (forall e, Terminal.interruptThrows t = Some e ->
              In (ConsoleLog ("HTFlow: Unable to send interrupt to server " ++
                              serverId ++ ":")) effects) /\
           (Terminal.interruptThrows t = None ->
              In (TerminalSendText t (String "003"%char "") false) effects) /\
           (exists rest,
              effects =
                (interruptAttempt serverId t ++ TerminalDispose t :: rest)%list)
     | Some errorMessage =>
         exists effects,
           stopServer this serverId port = (this, false, effects) /\
           In (ShowErrorMessage
                 ("Failed to stop HTFlow server: " ++ errorMessage)) effects /\
           (Terminal.interruptThrows t = None ->
              In (TerminalSendText t (String "003"%char "") false) effects) /\
           effects =
             (interruptAttempt serverId t ++
              [ConsoleError ("HTFlow: Error stopping server " ++ serverId ++ ":")%string;
               ShowErrorMessage
                 ("Failed to stop HTFlow server: " ++ errorMessage)%string])%list
     end) /\
  (snd (fst (stopServer this serverId port)) = false ->
   (Map_has serverId (_runningServers this) = false /\
    Map_has serverId (_terminals this) = false) \/
   (exists t errorMessage,
      terminalOf this serverId = Some t /\
      Terminal.disposeThrows t = Some errorMessage)).
Proof.
  destruct (stopServer_cases this serverId port)
    as [[K E]|[(t & msg & effects & K & Ht & D & E & _ & Hin)
              |(t & this' & effects & K & Ht & D & E & R & T & _ & Hd & Hi)]].
  - split; [congruence|]. intros _. left.
    unfold known, notFound in K. apply negb_false_iff in K.
    apply andb_true_iff in K. destruct K as [K1 K2].
    now apply negb_true_iff in K1, K2.
  - split.
    + intros _. exists t. split; auto.
      pose proof (stopServer_known_effects this serverId port t K Ht) as X.
      rewrite D in *. rewrite E in X. injection X as X.
      exists effects. split; [exact E|]. split; [exact Hin|].
      split; [|exact X].
      intros N. rewrite X. now apply interruptAttempt_sends.
    + intros _. right. eauto.
  - split.
    + intros _. exists t. split; auto.
      pose proof (stopServer_known_effects this serverId port t K Ht) as X.
      rewrite D in *. destruct X as (this0 & rest & X).
      rewrite E in X. injection X as _ X.
      exists this', effects. rewrite R, T.
      rewrite !Map_has_delete_same. repeat split; auto.
      * intros N. rewrite X. now apply interruptAttempt_sends.
      * exists rest. exact X.
    + rewrite E. discriminate.
Qed.

(** C4, witness: stopping the live server of the sample provider. *)
Lemma stopServer_outcome_witness :
  exists t, terminalOf liveProvider liveId = Some t /\
    match Terminal.disposeThrows t with
    | None =>
        exists this' effects,
           stopServer liveProvider liveId None = (this', true, effects) /\
           Map_has liveId (_runningServers this') = false /\
           Map_has liveId (_terminals this') = false /\
           In (TerminalDispose t) effects /\
           (forall e, Terminal.interruptThrows t = Some e ->
              In (ConsoleLog ("HTFlow: Unable to send interrupt to server " ++
                              liveId ++ ":")) effects) /\
           (Terminal.interruptThrows t = None ->
              In (TerminalSendText t (String "003"%char "") false) effects) /\
           (exists rest,
              effects =
                (interruptAttempt liveId t ++ TerminalDispose t :: rest)%list)
    | Some errorMessage =>
        exists effects,
           stopServer liveProvider liveId None = (liveProvider, false, effects) /\
           In (ShowErrorMessage
                 ("Failed to stop HTFlow server: " ++ errorMessage)) effects /\
           (Terminal.interruptThrows t = None ->
              In (TerminalSendText t (String "003"%char "") false) effects) /\
           effects =
             (interruptAttempt liveId t ++
              [ConsoleError ("HTFlow: Error stopping server " ++ liveId ++ ":")%string;
               ShowErrorMessage
                 ("Failed to stop HTFlow server: " ++ errorMessage)%string])%list
    end.
Proof.
  exact (proj1 (stopServer_outcome liveProvider liveId None) eq_refl).
Defined.

(** C4, counterexample: the server of the stubborn host has a registry
    entry, its terminal throws on disposal, and [stopServer] returns [false]
    with the entry still in the registry. *)
Lemma stop_with_failing_disposal :
  known stubbornProvider stubbornId = true /\
  snd (fst (stopServer stubbornProvider stubbornId None)) = false /\
  Map_has stubbornId
    (_runningServers (fst (fst (stopServer stubbornProvider stubbornId None))))
  = true.
Proof. repeat split; vm_compute; reflexivity. Qed.

(** C5: after [stopServer] returned [true] for an identifier, the
    identifier is in neither the registry nor the terminal map, and stopping
    it again returns [false]. *)
Theorem stop_clears_mapping this serverId port this' effects :
  stopServer this serverId port = (this', true, effects) ->
  Map_has serverId (_runningServers this') = false /\
  Map_has serverId (_terminals this') = false /\
  forall port', snd (fst (stopServer this' serverId port')) = false.
Proof.
  intros S.
  destruct (stopServer_cases this serverId port)
    as [[_ E]|[(t & msg & effects0 & _ & _ & _ & E & _)
              |(t & this0 & effects0 & _ & _ & _ & E & R & T & _)]];
    rewrite E in S; try discriminate.
  injection S as -> _.
  assert (H1 : Map_has serverId (_runningServers this') = false)
    by (rewrite R; apply Map_has_delete_same).
  assert (H2 : Map_has serverId (_terminals this') = false)
    by (rewrite T; apply Map_has_delete_same).
  repeat split; auto. intros port'.
  unfold stopServer, notFound. now rewrite H1, H2.
Qed.

(** C5, witness: stopping the live server of the sample provider. *)
Lemma stop_clears_mapping_witness :
  Map_has liveId
    (_runningServers (fst (fst (stopServer liveProvider liveId None)))) = false /\
  Map_has liveId
    (_terminals (fst (fst (stopServer liveProvider liveId None)))) = false /\
  forall port',
    snd (fst (stopServer (fst (fst (stopServer liveProvider liveId None)))
                liveId port')) = false.
Proof.
  exact (stop_clears_mapping liveProvider liveId None
           (fst (fst (stopServer liveProvider liveId None)))
           (snd (stopServer liveProvider liveId None)) eq_refl).
Defined.

(** C6: for an identifier with no registry entry and no terminal handle,
    [stopServer] returns [false], leaves the provider (registry, terminal
    map and live-preview target) as it was, and posts no message to any
    surface. *)
Theorem stopServer_unknown_id this serverId port :
  Map_has serverId (_runningServers this) = false ->
  Map_has serverId (_terminals this) = false ->
  exists effects,
    stopServer this serverId port = (this, false, effects) /\
    posted effects = [] /\
    (forall target msg, ~ In (PostMessage target msg) effects).
Proof.
  intros H1 H2. unfold stopServer, notFound. rewrite H1, H2. simpl.
  eexists. split; [reflexivity|]. split; [reflexivity|].
  apply posted_none. reflexivity.
Qed.

(** C6, witness: an identifier that no start issued, on the sample provider
    with a live server. *)
Lemma stopServer_unknown_id_witness :
  exists effects,
    stopServer liveProvider "dev-9999-1" None = (liveProvider, false, effects) /\
    posted effects = [] /\
    (forall target msg, ~ In (PostMessage target msg) effects).
Proof.
  exact (stopServer_unknown_id liveProvider "dev-9999-1" None eq_refl eq_refl).
Defined.

(** ** [startHTFlowServer]: the new server and its command line *)

Lemma sentTexts_app e1 e2 : sentTexts (e1 ++ e2) = (sentTexts e1 ++ sentTexts e2)%list.
Proof.
  induction e1 as [|e r IH]; simpl; auto.
  destruct e; simpl; auto. now rewrite IH.
Qed.

Lemma sentTexts_postIf b target msg : sentTexts (postIf b target msg) = [].
Proof. now destruct b. Qed.

(** A start request that finds no server for its port and mode, with a
    workspace open and a folder that can be trimmed, records a new server
    and sends exactly one command line to its terminal. *)
Lemma start_spawns this env port mode folder origin hasUserSpecifiedPort
    fsPath folderValue :
  let normalizedPort := normalizePort (portParameter port) mode in
  findRunningServerByPort this normalizedPort (Some mode) = None ->
  workspaceFolder env = Some fsPath ->
  folderValueOf folder = Some folderValue ->
  exists this' serverId server effects,
    startHTFlowServer this env port mode folder origin hasUserSpecifiedPort =
      (this', Some (serverId, server), effects) /\
    RunningServer.port server = normalizedPort /\
    RunningServer.mode server = mode /\
    RunningServer.folder server = folderValue /\
    RunningServer.origin server = origin /\
    sentTexts effects =
      [serverCommand mode folderValue (truthy hasUserSpecifiedPort)
         normalizedPort].
Proof.
  intros normalizedPort F W D. unfold startHTFlowServer.
  fold normalizedPort. rewrite F, W, D.
  do 4 eexists. split; [reflexivity|]. repeat split.
  cbn [sentTexts app]. rewrite !sentTexts_app, !sentTexts_postIf.
  destruct (Origin_eqb origin browser); reflexivity.
Qed.

Lemma serverCommand_cases mode folderValue (explicit : bool) normalizedPort :
  let folderArg := if (folderValue =? "")%string then "" else " " ++ folderValue in
  serverCommand mode folderValue explicit normalizedPort =
  if explicit then
    "npx htflow serve " ++ mode ++ folderArg ++ " -p " ++ string_of_Z normalizedPort
  else if (mode =? "dev")%string then "npx htflow dev" ++ folderArg
  else if (mode =? "start")%string then "npx htflow serve" ++ folderArg
  else
    "npx htflow serve " ++ mode ++ folderArg ++ " -p " ++ string_of_Z normalizedPort.
Proof.
  unfold serverCommand.
  destruct explicit, (mode =? "dev")%string, (mode =? "start")%string;
    reflexivity.
Qed.

(** C7: a start request that spawns a new server sends one command line to
    the new terminal. When the port was not explicitly specified it is the
    short form of the mode, "npx htflow dev [folder]" for "dev" and
    "npx htflow serve [folder]" for "start"; when the port was explicitly
    specified it is the long form
    "npx htflow serve <mode> [folder] -p <port>". *)
Theorem start_command_selection this env port mode folder origin
    hasUserSpecifiedPort fsPath folderValue :
  let normalizedPort := normalizePort (portParameter port) mode in
  let folderArg := if (folderValue =? "")%string then "" else " " ++ folderValue in
  findRunningServerByPort this normalizedPort (Some mode) = None ->
  workspaceFolder env = Some fsPath ->
  folderValueOf folder = Some folderValue ->
  exists command,
    sentTexts (snd (startHTFlowServer this env port mode folder origin
                      hasUserSpecifiedPort)) = [command] /\
    (truthy hasUserSpecifiedPort = false -> mode = "dev" ->
     command = "npx htflow dev" ++ folderArg) /\
    (truthy hasUserSpecifiedPort = false -> mode = "start" ->
     command = "npx htflow serve" ++ folderArg) /\
    (truthy hasUserSpecifiedPort = true ->
     command = "npx htflow serve " ++ mode ++ folderArg ++ " -p " ++
               string_of_Z normalizedPort).
Proof.
  intros normalizedPort folderArg F W D.
  destruct (start_spawns this env port mode folder origin hasUserSpecifiedPort
              fsPath folderValue F W D)
    as (this' & serverId & server & effects & E & _ & _ & _ & _ & T).
  rewrite E. simpl. eexists. split; [exact T|].
  fold normalizedPort.
  rewrite serverCommand_cases. fold folderArg.
  repeat split.
  - intros -> ->. reflexivity.
  - intros -> ->. reflexivity.
  - intros ->. reflexivity.
Qed.

(** C7, witness: a dev server started from the sidebar without a port of
    its own, in the folder "site". *)
Lemma start_command_selection_witness :
  exists command,
    sentTexts (snd (startHTFlowServer newProvider sampleEnv (VInt 3050) "dev"
                      (VStr " site ") sidebar (VBool false))) = [command] /\
    (truthy (VBool false) = false -> "dev" = "dev" ->
     command = "npx htflow dev" ++ " site") /\
    (truthy (VBool false) = false -> "dev" = "start" ->
     command = "npx htflow serve" ++ " site") /\
    (truthy (VBool false) = true ->
     command = "npx htflow serve " ++ "dev" ++ " site" ++ " -p " ++
               string_of_Z 3050).
Proof.
  exact (start_command_selection newProvider sampleEnv (VInt 3050) "dev"
           (VStr " site ") sidebar (VBool false) "/work/site" "site"
           eq_refl eq_refl eq_refl).
Defined.

(** A mode other than "dev" and "start" has no short form: its command
    line is the long form whether or not the port was explicitly
    specified. *)
Lemma serverCommand_other_mode mode folderValue explicit normalizedPort :
  mode <> "dev" -> mode <> "start" ->
  serverCommand mode folderValue explicit normalizedPort =
  "npx htflow serve " ++ mode ++
  (if (folderValue =? "")%string then "" else " " ++ folderValue) ++
  " -p " ++ string_of_Z normalizedPort.
Proof.
  intros Hd Hs. rewrite serverCommand_cases.
  apply String.eqb_neq in Hd, Hs. rewrite Hd, Hs.
  now destruct explicit.
Qed.

(** ** Captured command execution *)

Lemma posted_app e1 e2 : posted (e1 ++ e2) = (posted e1 ++ posted e2)%list.
Proof.
  induction e1 as [|e r IH]; simpl; auto.
  destruct e; simpl; auto. now rewrite IH.
Qed.

Lemma posted_results this (msg : OutMessage) (last : Effect) :
  posted [last] = [] ->
  posted (postIf (_view this) SidebarView msg ++
          postIf (_currentPanel this) DetachedPanel msg ++ [last]) =
  map (fun target => (target, msg)) (resultSurfaces this).
Proof.
  intros L. unfold resultSurfaces.
  rewrite !posted_app, L.
  destruct (_view this), (_currentPanel this); reflexivity.
Qed.

Lemma str_or_chain2 a b otherwise :
  str_or (str_or a b) otherwise = firstNonEmpty [a; b] otherwise.
Proof.
  unfold str_or; simpl.
  destruct (a =? "")%string eqn:A; rewrite ?A; reflexivity.
Qed.

Lemma str_or_chain3 a b c otherwise :
  str_or (str_or (str_or a b) c) otherwise = firstNonEmpty [a; b; c] otherwise.
Proof.
  unfold str_or; simpl.
  destruct (a =? "")%string eqn:A; rewrite ?A;
    destruct (b =? "")%string eqn:Bq; rewrite ?A, ?Bq; reflexivity.
Qed.

(** C8, as the code has it: with a workspace open, a captured execution
    that succeeds delivers to every result surface the standard output when
    it is not empty, else the standard error when that is not empty, else a
    "no output" sentinel. One that fails delivers the failed process's
    standard output, else its standard error, else the error message, and
    does not throw: [executeHTFlowCommandForPanel] delivers it (or a
    sentinel when all three are empty) with [success = false] and the exit
    code as reported, or 1 when none was reported;
    [executeHTFlowAuditForPanel] delivers the output text alone, with no
    exit code and no success flag, and delivers nothing when all three are
    empty. *)
Theorem capture_fallback_chain this env fsPath command successMessage folder :
  exec_workspaceFolder env = Some fsPath ->
  match exec_outcome env with
  | Resolved stdout stderr =>
      posted (executeHTFlowCommandForPanel this env command successMessage folder) =
        map (fun target =>
               (target,
                commandResults
                  {| data_command := panelCommandText command folder;
                     data_output :=
                       firstNonEmpty [stdout; stderr]
                         "Command completed successfully (no output)";
                     data_error := false;
                     data_success := true;
                     data_exitCode := VInt 0;
                     data_duration := exec_endTime env - exec_startTime env |}))
            (resultSurfaces this) /\
      posted (executeHTFlowAuditForPanel this env folder successMessage) =
        map (fun target =>
               (target,
                auditResults (firstNonEmpty [stdout; stderr] "No output received")))
            (resultSurfaces this)
  | Rejected e =>
      posted (executeHTFlowCommandForPanel this env command successMessage folder) =
        map (fun target =>
               (target,
                commandResults
                  {| data_command := panelCommandText command folder;
                     data_output :=
                       firstNonEmpty [err_stdout e; err_stderr e; err_message e]
                         "Command failed with no output";
                     data_error := true;
                     data_success := false;
                     data_exitCode :=
                       if truthy (err_code e) then err_code e else VInt 1;
                     data_duration := exec_endTime env - exec_startTime env |}))
            (resultSurfaces this) /\
      posted (executeHTFlowAuditForPanel this env folder successMessage) =
        (if (firstNonEmpty [err_stdout e; err_stderr e] (err_message e) =? "")%string
         then []
         else
           map (fun target =>
                  (target,
                   auditResults
                     (firstNonEmpty [err_stdout e; err_stderr e] (err_message e))))
               (resultSurfaces this))
  end.
Proof.
  intros W. unfold executeHTFlowCommandForPanel, executeHTFlowAuditForPanel.
  rewrite W. destruct (exec_outcome env) as [stdout stderr|e].
  - cbn [posted app].
    rewrite !posted_results by reflexivity.
    now rewrite !str_or_chain2.
  - cbn [posted app].
    rewrite posted_results by reflexivity.
    rewrite str_or_chain3, str_or_chain2. split; [reflexivity|].
    destruct (firstNonEmpty _ (err_message e) =? "")%string.
    + reflexivity.
    + rewrite <- app_assoc. now rewrite posted_results.
Qed.

(** C8, witness: a failed command and a failed audit on the sample
    provider, whose only result surface is the sidebar view. *)
Lemma capture_fallback_chain_witness :
  posted (executeHTFlowCommandForPanel openProvider failedAudit "build"
            "Project built successfully!" None) =
    [(SidebarView,
      commandResults
        {| data_command := "npx htflow build";
           data_output := "audit: 3 problems";
           data_error := true;
           data_success := false;
           data_exitCode := VInt 2;
           data_duration := 750 |})] /\
  posted (executeHTFlowAuditForPanel openProvider failedAudit None
            "Project built successfully!") =
    [(SidebarView, auditResults "audit: 3 problems")].
Proof.
  exact (capture_fallback_chain openProvider failedAudit "/work/site" "build"
           "Project built successfully!" None eq_refl).
Defined.

(** A run that succeeds with an empty standard output delivers the
    standard error. *)
Example quiet_run_delivers_stderr :
  map (fun m => message_output (snd m))
    (posted (executeHTFlowCommandForPanel openProvider quietRun "validate"
               "Validation completed successfully!" None)) =
    [Some "warning: nothing to do"] /\
  map (fun m => message_output (snd m))
    (posted (executeHTFlowAuditForPanel openProvider quietRun None
               "Audit completed successfully!")) =
    [Some "warning: nothing to do"].
Proof. split; reflexivity. Qed.

(** C8, counterexample: a failed audit is delivered as [auditResults] with
    the text of the standard error; the message has no exit code and no
    success flag. *)
Lemma failed_audit_has_no_exit_code :
  posted (executeHTFlowAuditForPanel openProvider failedAudit None
            "Audit completed successfully!") =
    [(SidebarView, auditResults "audit: 3 problems")] /\
  message_output (auditResults "audit: 3 problems") = Some "audit: 3 problems" /\
  message_success (auditResults "audit: 3 problems") = None /\
  message_exitCode (auditResults "audit: 3 problems") = None.
Proof. repeat split. Qed.

(** ** Message dispatch *)

Section DispatchFacts.
Context {B : JsBuiltins}.

Lemma unknown_command_sidebar (message : Message) :
  (forall c, In c commandNames -> isCommand message c = false) ->
  operation (resolveWebviewView_onMessage message) =
    ShowInfo ("HTFlow: " ++ template (message "command")).
Proof.
  intros U. unfold resolveWebviewView_onMessage. cbn [operation].
  rewrite !U by (unfold commandNames; simpl; tauto). reflexivity.
Qed.

Lemma unknown_command_panel (message : Message) :
  (forall c, In c commandNames -> isCommand message c = false) ->
  operation (attachMessageHandler_onMessage message) =
    ShowInfo ("HTFlow: " ++ template (message "command")).
Proof.
  intros U. unfold attachMessageHandler_onMessage. cbn [operation].
  rewrite !U by (unfold commandNames; simpl; tauto). reflexivity.
Qed.

(** What both handlers do with [startLiveServer]. *)
Lemma startLiveServer_sidebar (message : Message) :
  isCommand message "startLiveServer" = true ->
  operation (resolveWebviewView_onMessage message) =
    StartHTFlowServer (js_or (message "port") (VInt 3000)) "dev" VUndefined
      browser (VBool false).
Proof.
  unfold resolveWebviewView_onMessage. cbn [operation]. unfold isCommand.
  destruct (message "command") as [| |b|n|s]; try discriminate.
  intros E. apply String.eqb_eq in E. subst s. reflexivity.
Qed.

Lemma startLiveServer_panel (message : Message) :
  isCommand message "startLiveServer" = true ->
  operation (attachMessageHandler_onMessage message) =
    StartHTFlowServer (js_or (message "port") (VInt 3000)) "dev" VUndefined
      browser (VBool false).
Proof.
  unfold attachMessageHandler_onMessage. cbn [operation]. unfold isCommand.
  destruct (message "command") as [| |b|n|s]; try discriminate.
  intros E. apply String.eqb_eq in E. subst s. reflexivity.
Qed.

(** C9: for every message, the handler that [resolveWebviewView] installs
    on the sidebar view and the handler that [attachMessageHandler] installs
    on the detached panel make the same call with the same arguments, and a
    message whose command is none of the [case] labels is answered in both
    by the information message "HTFlow: <command>". *)
Theorem handlers_agree (message : Message) :
  operation (resolveWebviewView_onMessage message) =
    operation (attachMessageHandler_onMessage message) /\
  ((forall c, In c commandNames -> isCommand message c = false) ->
   operation (resolveWebviewView_onMessage message) =
     ShowInfo ("HTFlow: " ++ template (message "command")) /\
   operation (attachMessageHandler_onMessage message) =
     ShowInfo ("HTFlow: " ++ template (message "command"))).
Proof.
  split.
  - reflexivity.
  - intros U. split.
    + now apply unknown_command_sidebar.
    + now apply unknown_command_panel.
Qed.

(** The two handlers are not one function: they log different lines. *)
Lemma handlers_log_differently (message : Message) :
  logged (resolveWebviewView_onMessage message) <>
  logged (attachMessageHandler_onMessage message).
Proof. cbn [logged resolveWebviewView_onMessage attachMessageHandler_onMessage]. intros [= H]. Qed.

(** C10: on [startLiveServer], the handlers of the sidebar view and of the
    detached panel call [startHTFlowServer] with the port of the message (or
    3000 when it has none), mode "dev", no folder, origin [browser] and the
    port flagged as not explicitly specified, whatever the mode and folder
    of the message say; so a server they spawn is started with
    "npx htflow dev". The handler of the browser panel passes the clamped
    port, the trimmed mode of the message when it is a string that is not
    blank ("dev" otherwise), the folder of the message, origin [browser] and
    the port flagged as explicitly specified. *)
Theorem startLiveServer_dispatch (message : Message) :
  isCommand message "startLiveServer" = true ->
  let call :=
    StartHTFlowServer (js_or (message "port") (VInt 3000)) "dev" VUndefined
      browser (VBool false) in
  operation (resolveWebviewView_onMessage message) = call /\
  operation (attachMessageHandler_onMessage message) = call /\
  (message "port" = VUndefined ->
   call = StartHTFlowServer (VInt 3000) "dev" VUndefined browser (VBool false)) /\
  (forall other : Message,
     isCommand other "startLiveServer" = true ->
     other "port" = message "port" ->
     operation (resolveWebviewView_onMessage other) = call /\
     operation (attachMessageHandler_onMessage other) = call) /\
  (forall this env fsPath,
     findRunningServerByPort this
       (normalizePort (portParameter (js_or (message "port") (VInt 3000))) "dev")
       (Some "dev") = None ->
     workspaceFolder env = Some fsPath ->
     sentTexts (snd (startHTFlowServer this env
                       (js_or (message "port") (VInt 3000)) "dev" VUndefined
                       browser (VBool false))) = ["npx htflow dev"]) /\
  (exists requestedPort,
     1 <= requestedPort <= 65535 /\
     openBrowserPanel_startLiveServer message =
       StartHTFlowServer (VInt requestedPort)
         match message "mode" with
         | VStr s => if (trim s =? "")%string then "dev" else trim s
         | _ => "dev"
         end
         (message "folder") browser (VBool true)) /\
  (forall s, message "mode" = VStr s -> trim s <> "" ->
   exists requestedPort,
     openBrowserPanel_startLiveServer message =
       StartHTFlowServer (VInt requestedPort) (trim s) (message "folder")
         browser (VBool true)).
Proof.
  intros E call.
  split; [now apply startLiveServer_sidebar|].
  split; [now apply startLiveServer_panel|].
  split; [intros P; unfold call; now rewrite P|].
  split.
  { intros other Eo P. unfold call. rewrite <- P.
    split; [now apply startLiveServer_sidebar|now apply startLiveServer_panel]. }
  split.
  { intros this env fsPath F W.
    destruct (start_spawns this env (js_or (message "port") (VInt 3000)) "dev"
                VUndefined browser (VBool false) fsPath "" F W eq_refl)
      as (this' & serverId & server & effects & S & _ & _ & _ & _ & T).
    rewrite S. exact T. }
  split.
  { unfold openBrowserPanel_startLiveServer.
    destruct (Number (message "port")) as [q| | |].
    - exists (clampPort q). split; [apply clampPort_range|reflexivity].
    - exists 3000. split; [lia|reflexivity].
    - exists 3000. split; [lia|reflexivity].
    - exists 3000. split; [lia|reflexivity]. }
  intros s M Hs. unfold openBrowserPanel_startLiveServer. rewrite M.
  apply String.eqb_neq in Hs. rewrite Hs. eexists. reflexivity.
Qed.
End DispatchFacts.

(** C10, witness: the sample [startLiveServer] message. *)
Lemma startLiveServer_dispatch_witness :
  operation (resolveWebviewView_onMessage (B := decimalBuiltins) liveMessage) =
    StartHTFlowServer (VInt 8080) "dev" VUndefined browser (VBool false) /\
  operation (attachMessageHandler_onMessage (B := decimalBuiltins) liveMessage) =
    StartHTFlowServer (VInt 8080) "dev" VUndefined browser (VBool false) /\
  exists requestedPort,
    1 <= requestedPort <= 65535 /\
    openBrowserPanel_startLiveServer (B := decimalBuiltins) liveMessage =
      StartHTFlowServer (VInt requestedPort) "start" (VStr "site") browser
        (VBool true).
Proof.
  exact (let H :=
           startLiveServer_dispatch (B := decimalBuiltins) liveMessage eq_refl in
         conj (proj1 H)
           (conj (proj1 (proj2 H))
              (proj1 (proj2 (proj2 (proj2 (proj2 (proj2 H)))))))).
Defined.

(** C9, witness: the sample message with an unknown command. *)
Lemma handlers_agree_witness :
  operation (resolveWebviewView_onMessage (B := decimalBuiltins) pingMessage) =
    ShowInfo "HTFlow: ping" /\
  operation (attachMessageHandler_onMessage (B := decimalBuiltins) pingMessage) =
    ShowInfo "HTFlow: ping".
Proof.
  refine (proj2 (handlers_agree (B := decimalBuiltins) pingMessage) _).
  intros c Hc. unfold commandNames in Hc. simpl in Hc.
  repeat (destruct Hc as [<-|Hc]; [reflexivity|]). contradiction.
Defined.

(** ** The registry along the runs of the provider *)

Lemma In_Map_has {V : Type} (k : string) (v : V) (m : JsMap V) :
  In (k, v) m -> Map_has k m = true.
Proof.
  unfold Map_has. induction m as [|[k' v'] r IH]; simpl; [tauto|].
  intros [[= -> ->]|Hin].
  - now rewrite String.eqb_refl.
  - destruct (k' =? k)%string; auto.
Qed.

Lemma findIn_Some port mode entries serverId server :
  findIn port mode entries = Some (serverId, server) ->
  In (serverId, server) entries /\ matchesPort port mode server = true.
Proof.
  induction entries as [|[k v] r IH]; simpl; [discriminate|].
  destruct (matchesPort port mode v) eqn:M.
  - intros [= -> ->]. auto.
  - intros F. destruct (IH F). auto.
Qed.

Lemma findIn_None port mode entries :
  findIn port mode entries = None ->
  forall e, In e entries -> matchesPort port mode (snd e) = false.
Proof.
  induction entries as [|[k v] r IH]; simpl; [tauto|].
  destruct (matchesPort port mode v) eqn:M; [discriminate|].
  intros F e [<-|Hin]; auto.
Qed.

Lemma findIn_Map_set port mode entries serverId server :
  findIn port mode entries = None ->
  matchesPort port mode server = true ->
  findIn port mode (Map_set serverId server entries) = Some (serverId, server).
Proof.
  intros F M. induction entries as [|[k v] r IH]; simpl.
  - now rewrite M.
  - simpl in F. destruct (matchesPort port mode v) eqn:Mv; [discriminate|].
    destruct (k =? serverId)%string; simpl.
    + now rewrite M.
    + rewrite Mv. auto.
Qed.

Lemma matchesPort_portMode port mode server :
  RunningServer.port server = port -> RunningServer.mode server = mode ->
  matchesPort port (Some mode) server = true.
Proof.
  intros <- <-. unfold matchesPort.
  rewrite Z.eqb_refl, String.eqb_refl. simpl. apply orb_true_r.
Qed.

Lemma In_portMode_Map_set serverId server entries x :
  In x (map portMode (Map_set serverId server entries)) ->
  x = portMode (serverId, server) \/ In x (map portMode entries).
Proof.
  induction entries as [|[k v] r IH]; simpl.
  - intros [<-|[]]. auto.
  - destruct (k =? serverId)%string; simpl.
    + intros [<-|Hin]; auto.
    + intros [<-|Hin]; auto. destruct (IH Hin); auto.
Qed.

Lemma NoDup_portMode_Map_set serverId server entries :
  NoDup (map portMode entries) ->
  ~ In (portMode (serverId, server)) (map portMode entries) ->
  NoDup (map portMode (Map_set serverId server entries)).
Proof.
  induction entries as [|[k v] r IH]; simpl; intros N Hnew.
  - constructor; [tauto|constructor].
  - inversion N as [|x l Hx Nr]; subst.
    destruct (k =? serverId)%string; simpl.
    + constructor; auto.
    + constructor.
      * intros Hin. apply In_portMode_Map_set in Hin.
        destruct Hin as [Heq|Hin]; [|contradiction].
        apply Hnew. left. now rewrite Heq.
      * apply IH; auto.
Qed.

Lemma In_portMode_Map_delete serverId entries x :
  In x (map portMode (Map_delete serverId entries)) ->
  In x (map portMode entries).
Proof.
  induction entries as [|[k v] r IH]; simpl; [tauto|].
  destruct (k =? serverId)%string; simpl; [auto|].
  intros [<-|Hin]; auto.
Qed.

Lemma NoDup_portMode_Map_delete serverId entries :
  NoDup (map portMode entries) ->
  NoDup (map portMode (Map_delete serverId entries)).
Proof.
  induction entries as [|[k v] r IH]; simpl; intros N; [constructor|].
  inversion N as [|x l Hx Nr]; subst.
  destruct (k =? serverId)%string; simpl; auto.
  constructor; auto.
  intros Hin. apply Hx. eapply In_portMode_Map_delete; eauto.
Qed.

Lemma findIn_None_portMode port mode entries :
  findIn port (Some mode) entries = None ->
  ~ In (port, mode) (map portMode entries).
Proof.
  intros F Hin. apply in_map_iff in Hin. destruct Hin as ([k v] & Hpm & Hin).
  pose proof (findIn_None _ _ _ F _ Hin) as M. simpl in M.
  injection Hpm as Hp Hm.
  rewrite matchesPort_portMode in M; auto. discriminate.
Qed.

Lemma unique_entries (port : Z) (mode : string)
    (entries : JsMap RunningServer.t) :
  NoDup (map portMode entries) ->
  (List.length (filter (fun e => (RunningServer.port (snd e) =? port)%Z &&
                                 (RunningServer.mode (snd e) =? mode)%string)
                       entries) <= 1)%nat.
Proof.
  induction entries as [|e r IH]; simpl; intros N; [lia|].
  inversion N as [|x l Hx Nr]; subst.
  destruct ((RunningServer.port (snd e) =? port) &&
            (RunningServer.mode (snd e) =? mode)%string) eqn:M.
  - apply andb_true_iff in M. destruct M as [Mp Mm].
    apply Z.eqb_eq in Mp. apply String.eqb_eq in Mm.
    assert (E : filter (fun e0 => (RunningServer.port (snd e0) =? port) &&
                                  (RunningServer.mode (snd e0) =? mode)%string) r
                = []).
    { destruct (filter _ r) as [|e' l'] eqn:Fl; auto.
      assert (Hin : In e' (filter (fun e0 =>
                (RunningServer.port (snd e0) =? port) &&
                (RunningServer.mode (snd e0) =? mode)%string) r))
        by (rewrite Fl; simpl; auto).
      apply filter_In in Hin. destruct Hin as [Hin M'].
      apply andb_true_iff in M'. destruct M' as [Mp' Mm'].
      apply Z.eqb_eq in Mp'. apply String.eqb_eq in Mm'.
      exfalso. apply Hx. apply in_map_iff. exists e'. split; auto.
      unfold portMode. congruence. }
    simpl. rewrite E. simpl. lia.
  - auto.
Qed.

(** What [startHTFlowServer] does to the registry and to the live-preview
    target: it finds a server and returns it, or fails and records nothing,
    or records the new server it returns. *)
Lemma startHTFlowServer_registry this env port mode folder origin
    hasUserSpecifiedPort :
  let normalizedPort := normalizePort (portParameter port) mode in
  let run := startHTFlowServer this env port mode folder origin
               hasUserSpecifiedPort in
  let this' := fst (fst run) in
  (exists e,
     findRunningServerByPort this normalizedPort (Some mode) = Some e /\
     snd (fst run) = Some e /\
     _runningServers this' = _runningServers this /\
     (_browserLiveServerId this' = _browserLiveServerId this \/
      _browserLiveServerId this' = Some (fst e)))
  \/
  (findRunningServerByPort this normalizedPort (Some mode) = None /\
   snd (fst run) = None /\
   _runningServers this' = _runningServers this /\
   _browserLiveServerId this' = _browserLiveServerId this)
  \/
  (findRunningServerByPort this normalizedPort (Some mode) = None /\
   exists serverId server,
     snd (fst run) = Some (serverId, server) /\
     RunningServer.port server = normalizedPort /\
     RunningServer.mode server = mode /\
     _runningServers this' = Map_set serverId server (_runningServers this) /\
     (_browserLiveServerId this' = _browserLiveServerId this \/
      _browserLiveServerId this' = Some serverId)).
Proof.
  intros normalizedPort run this'. subst run this'.
  unfold startHTFlowServer. fold normalizedPort.
  destruct (findRunningServerByPort this normalizedPort (Some mode))
    as [[serverId server]|] eqn:F.
  - left. exists (serverId, server). split; [reflexivity|].
    destruct (Origin_eqb origin browser); simpl.
    + destruct (ensureBrowserPortMapping_fields
                  (set_browserLiveServerId (Some serverId) this)
                  (RunningServer.port server)) as (R & _ & T & _).
      rewrite R, T. auto.
    + auto.
  - right. destruct (workspaceFolder env) as [fsPath|]; [|left; auto].
    destruct (folderValueOf folder) as [folderValue|]; [|left; auto].
    right. split; [reflexivity|]. do 2 eexists.
    split; [reflexivity|]. split; [reflexivity|]. split; [reflexivity|].
    destruct (Origin_eqb origin browser); simpl.
    + match goal with
      | |- context [ensureBrowserPortMapping ?p ?q] =>
          destruct (ensureBrowserPortMapping_fields p q) as (R & _ & T & _)
      end.
      rewrite R, T. auto.
    + auto.
Qed.

Lemma start_then_found this env port mode folder origin hasUserSpecifiedPort e :
  snd (fst (startHTFlowServer this env port mode folder origin
              hasUserSpecifiedPort)) = Some e ->
  findRunningServerByPort
    (fst (fst (startHTFlowServer this env port mode folder origin
                 hasUserSpecifiedPort)))
    (normalizePort (portParameter port) mode) (Some mode) = Some e.
Proof.
  intros S. unfold findRunningServerByPort at 1.
  destruct (startHTFlowServer_registry this env port mode folder origin
              hasUserSpecifiedPort)
    as [(e' & F & S' & R & _)|[(_ & S' & _)|(F & k & v & S' & P & M & R & _)]];
    rewrite S' in S; try discriminate; injection S as <-; rewrite R.
  - exact F.
  - apply findIn_Map_set; auto. now apply matchesPort_portMode.
Qed.

Lemma start_when_found this env port mode folder origin hasUserSpecifiedPort e :
  findRunningServerByPort this (normalizePort (portParameter port) mode)
    (Some mode) = Some e ->
  snd (fst (startHTFlowServer this env port mode folder origin
              hasUserSpecifiedPort)) = Some e /\
  _runningServers (fst (fst (startHTFlowServer this env port mode folder origin
                               hasUserSpecifiedPort))) = _runningServers this.
Proof.
  intros F.
  destruct (startHTFlowServer_registry this env port mode folder origin
              hasUserSpecifiedPort)
    as [(e' & F' & S' & R & _)|[(F' & _)|(F' & _)]];
    rewrite F' in F; try discriminate.
  injection F as <-. auto.
Qed.

Lemma startAll_cons this port mode r rest :
  startAll this port mode (r :: rest) =
  (fst (startAll
          (fst (fst (startHTFlowServer this (req_env r) port mode (req_folder r)
                       (req_origin r) (req_hasUserSpecifiedPort r))))
          port mode rest),
   snd (fst (startHTFlowServer this (req_env r) port mode (req_folder r)
               (req_origin r) (req_hasUserSpecifiedPort r))) ::
   snd (startAll
          (fst (fst (startHTFlowServer this (req_env r) port mode (req_folder r)
                       (req_origin r) (req_hasUserSpecifiedPort r))))
          port mode rest)).
Proof.
  simpl.
  destruct (startHTFlowServer this (req_env r) port mode (req_folder r)
              (req_origin r) (req_hasUserSpecifiedPort r)) as [[this1 result] effects].
  simpl. destruct (startAll this1 port mode rest). reflexivity.
Qed.

(** Once a server is found for the port and mode, every further request
    returns it and the registry stays as it is. *)
Lemma startAll_found port mode requests : forall this e,
  findRunningServerByPort this (normalizePort (portParameter port) mode)
    (Some mode) = Some e ->
  Forall (fun result => result = Some e) (snd (startAll this port mode requests)) /\
  _runningServers (fst (startAll this port mode requests)) = _runningServers this.
Proof.
  induction requests as [|r rest IH]; intros this e F.
  - simpl. auto.
  - rewrite startAll_cons. cbn [fst snd].
    destruct (start_when_found this (req_env r) port mode (req_folder r)
                (req_origin r) (req_hasUserSpecifiedPort r) e F) as [S R].
    assert (F' : findRunningServerByPort
                   (fst (fst (startHTFlowServer this (req_env r) port mode
                                (req_folder r) (req_origin r)
                                (req_hasUserSpecifiedPort r))))
                   (normalizePort (portParameter port) mode) (Some mode) = Some e)
      by (unfold findRunningServerByPort in *; now rewrite R).
    destruct (IH _ e F') as [A Rr]. split.
    + constructor; auto.
    + now rewrite Rr.
Qed.

Lemma startAll_reachable port mode requests : forall this,
  reachable this -> reachable (fst (startAll this port mode requests)).
Proof.
  induction requests as [|r rest IH]; intros this H; [exact H|].
  rewrite startAll_cons. cbn [fst]. apply IH.
  eapply reachable_step; [exact H|apply step_start].
Qed.

(** [dispose] empties both maps unless a disposal throws, and never touches
    the live-preview target. *)
Lemma dispose_fields this :
  (_runningServers (fst (fst (dispose this))) = _runningServers this \/
   (snd (dispose this) = None /\ _runningServers (fst (fst (dispose this))) = [])) /\
  _browserLiveServerId (fst (fst (dispose this))) = _browserLiveServerId this.
Proof.
  unfold dispose.
  destruct (_fileWatcher this);
    match goal with
    | |- context [disposeEach ?t] => destruct (disposeEach t) as [e3 [msg|]]
    end; simpl; auto.
Qed.

Lemma browserReady_fields this :
  _runningServers (fst (browserReady this)) = _runningServers this.
Proof.
  unfold browserReady.
  destruct (_browserLiveServerId this) as [i|]; auto.
  destruct (i =? "")%string; auto.
  destruct (Map_get i (_runningServers this)); auto.
  simpl. apply ensureBrowserPortMapping_fields.
Qed.

(** No two entries of the registry serve the same port in the same mode. *)
Lemma reachable_unique this : reachable this -> uniquePortMode this.
Proof.
  unfold uniquePortMode.
  induction 1 as [|this this' _ IH S]; [constructor|].
  destruct S as [this env port mode folder origin has|this serverId port|this
                |this|this b|this b|this|this]; try exact IH.
  - destruct (startHTFlowServer_registry this env port mode folder origin has)
      as [(e & _ & _ & R & _)|[(_ & _ & R & _)|(F & k & v & _ & P & M & R & _)]];
      rewrite R; auto.
    apply NoDup_portMode_Map_set; auto.
    unfold portMode; simpl. rewrite P, M.
    now apply findIn_None_portMode.
  - destruct (stopServer_cases this serverId port)
      as [[_ E]|[(t & msg & effects & _ & _ & _ & E & _)
                |(t & this0 & effects & _ & _ & _ & E & R & _)]];
      rewrite E; simpl; auto.
    rewrite R. now apply NoDup_portMode_Map_delete.
  - destruct (dispose_fields this) as [[R|[_ R]] _]; rewrite R; auto.
    constructor.
  - now rewrite browserReady_fields.
Qed.

(** The new terminal and the provider a spawn leaves. *)
Lemma start_spawn_state this env port mode folder origin hasUserSpecifiedPort
    fsPath folderValue :
  let normalizedPort := normalizePort (portParameter port) mode in
  let serverId := serverIdFor mode normalizedPort (dateNow env) in
  let terminal :=
    Terminal.make
      ("HTFlow Server (" ++ mode ++ ":" ++ string_of_Z normalizedPort ++ ")")
      fsPath (newTerminalInterruptThrows env) (newTerminalDisposeThrows env) in
  let server :=
    RunningServer.make normalizedPort mode folderValue (newDate env) terminal
      origin in
  let recorded :=
    set_runningServers (Map_set serverId server (_runningServers this))
      (set_terminals (Map_set serverId terminal (_terminals this)) this) in
  findRunningServerByPort this normalizedPort (Some mode) = None ->
  workspaceFolder env = Some fsPath ->
  folderValueOf folder = Some folderValue ->
  fst (startHTFlowServer this env port mode folder origin hasUserSpecifiedPort) =
  (if Origin_eqb origin browser
   then ensureBrowserPortMapping
          (set_browserLiveServerId (Some serverId) recorded) normalizedPort
   else recorded,
   Some (serverId, server)).
Proof.
  intros normalizedPort serverId terminal server recorded F W D.
  unfold startHTFlowServer. fold normalizedPort. rewrite F, W, D.
  cbn [fst]. destruct (Origin_eqb origin browser); reflexivity.
Qed.

Lemma startAll_length port mode requests : forall this,
  List.length (snd (startAll this port mode requests)) = List.length requests.
Proof.
  induction requests as [|r rest IH]; intros this; [reflexivity|].
  rewrite startAll_cons. cbn [snd List.length]. now rewrite IH.
Qed.

Lemma Forall_constant {A B : Type} (c : B) : forall (results : list B) (xs : list A),
  List.length results = List.length xs ->
  Forall (fun result => result = c) results ->
  results = map (fun _ => c) xs.
Proof.
  induction results as [|y results IH]; intros [|x xs] L A0; try discriminate;
    [reflexivity|].
  inversion A0; subst. simpl. f_equal. apply IH; auto.
Qed.

(** With a server found for the port and mode, every request of a run
    returns it. *)
Lemma startAll_found_results port mode requests this e :
  findRunningServerByPort this (normalizePort (portParameter port) mode)
    (Some mode) = Some e ->
  snd (startAll this port mode requests) = map (fun _ => Some e) requests /\
  _runningServers (fst (startAll this port mode requests)) = _runningServers this.
Proof.
  intros F. destruct (startAll_found port mode requests this e F) as [A R].
  split; [|exact R].
  apply Forall_constant; [apply startAll_length|exact A].
Qed.

(** C1, as the code has it: in a run of [startHTFlowServer] calls that all
    name the same port and mode, from any provider state that can arise,
    the registry ends with at most one entry for any port in that mode. When
    a server for the port and mode is already recorded, every call of the
    run returns its identifier and entry and the registry stays as it was.
    When none is recorded and the first call is made with a workspace folder
    open and a folder argument that is absent or a string, the first call
    records one new entry for the normalized port and the mode, under the
    identifier made of the mode, the port and the time of the call; it and
    every later call return that identifier and entry, and the registry stays
    the one the first call left. In general, once the first call has returned
    an identifier and entry, every later call returns the same pair. *)
Theorem no_duplicate_start this port mode :
  reachable this ->
  (forall requests p,
     (List.length (entriesFor p mode (fst (startAll this port mode requests)))
      <= 1)%nat) /\
  (forall requests existing,
     findRunningServerByPort this (normalizePort (portParameter port) mode)
       (Some mode) = Some existing ->
     snd (startAll this port mode requests) =
       map (fun _ => Some existing) requests /\
     _runningServers (fst (startAll this port mode requests)) =
       _runningServers this) /\
  (forall r rest fsPath folderValue,
     findRunningServerByPort this (normalizePort (portParameter port) mode)
       (Some mode) = None ->
     workspaceFolder (req_env r) = Some fsPath ->
     folderValueOf (req_folder r) = Some folderValue ->
     exists server,
       let serverId :=
         serverIdFor mode (normalizePort (portParameter port) mode)
           (dateNow (req_env r)) in
       snd (startAll this port mode (r :: rest)) =
         map (fun _ => Some (serverId, server)) (r :: rest) /\
       RunningServer.port server = normalizePort (portParameter port) mode /\
       RunningServer.mode server = mode /\
       RunningServer.folder server = folderValue /\
       _runningServers (fst (startAll this port mode (r :: rest))) =
         Map_set serverId server (_runningServers this) /\
       findRunningServerByPort (fst (startAll this port mode (r :: rest)))
         (normalizePort (portParameter port) mode) (Some mode) =
         Some (serverId, server)) /\
  (forall requests first later,
     snd (startAll this port mode requests) = Some first :: later ->
     Forall (fun result => result = Some first) later /\
     _runningServers (fst (startAll this port mode requests)) =
       _runningServers (fst (startAll this port mode (firstn 1 requests))) /\
     findRunningServerByPort (fst (startAll this port mode requests))
       (normalizePort (portParameter port) mode) (Some mode) = Some first).
Proof.
  intros H. split; [|split; [|split]].
  - intros requests p. unfold entriesFor. apply unique_entries.
    apply reachable_unique. now apply startAll_reachable.
  - intros requests existing F. now apply startAll_found_results.
  - intros r rest fsPath folderValue F W D.
    pose proof (start_spawn_state this (req_env r) port mode (req_folder r)
                  (req_origin r) (req_hasUserSpecifiedPort r) fsPath folderValue
                  F W D) as E.
    cbv zeta in E.
    match type of E with
    | _ = (_, Some (_, ?srv)) => exists srv
    end.
    cbv zeta.
    assert (S1 : snd (fst (startHTFlowServer this (req_env r) port mode
                             (req_folder r) (req_origin r)
                             (req_hasUserSpecifiedPort r))) =
                 Some (serverIdFor mode (normalizePort (portParameter port) mode)
                         (dateNow (req_env r)),
                       RunningServer.make (normalizePort (portParameter port) mode)
                         mode folderValue (newDate (req_env r))
                         (Terminal.make
                            ("HTFlow Server (" ++ mode ++ ":" ++
                             string_of_Z (normalizePort (portParameter port) mode)
                             ++ ")")
                            fsPath (newTerminalInterruptThrows (req_env r))
                            (newTerminalDisposeThrows (req_env r)))
                         (req_origin r)))
      by now rewrite E.
    pose proof (start_then_found _ _ _ _ _ _ _ _ S1) as F1.
    destruct (startAll_found_results port mode rest _ _ F1) as [A R].
    rewrite startAll_cons. cbn [fst snd map]. rewrite S1, A.
    split; [reflexivity|]. do 3 (split; [reflexivity|]).
    assert (R1 : _runningServers
                   (fst (fst (startHTFlowServer this (req_env r) port mode
                                (req_folder r) (req_origin r)
                                (req_hasUserSpecifiedPort r)))) =
                 Map_set
                   (serverIdFor mode (normalizePort (portParameter port) mode)
                      (dateNow (req_env r)))
                   (RunningServer.make (normalizePort (portParameter port) mode)
                      mode folderValue (newDate (req_env r))
                      (Terminal.make
                         ("HTFlow Server (" ++ mode ++ ":" ++
                          string_of_Z (normalizePort (portParameter port) mode)
                          ++ ")")
                         fsPath (newTerminalInterruptThrows (req_env r))
                         (newTerminalDisposeThrows (req_env r)))
                      (req_origin r))
                   (_runningServers this)).
    { destruct (startHTFlowServer_registry this (req_env r) port mode
                  (req_folder r) (req_origin r) (req_hasUserSpecifiedPort r))
        as [(e' & F' & _)|[(_ & S' & _)|(_ & k & v & S' & _ & _ & R' & _)]].
      - rewrite F' in F. discriminate.
      - rewrite S' in S1. discriminate.
      - rewrite S' in S1. injection S1 as -> ->. exact R'. }
    split.
    + now rewrite R.
    + unfold findRunningServerByPort in *. now rewrite R.
  - intros requests first later S. destruct requests as [|r rest]; [discriminate|].
    rewrite startAll_cons in S. cbn [snd] in S. injection S as S1 S2.
    pose proof (start_then_found _ _ _ _ _ _ _ _ S1) as F.
    destruct (startAll_found port mode rest _ _ F) as [A R].
    rewrite startAll_cons. cbn [fst]. rewrite <- S2.
    split; [exact A|]. split.
    + rewrite R. cbn [firstn]. rewrite startAll_cons. reflexivity.
    + unfold findRunningServerByPort in *. now rewrite R.
Qed.

(** C1, witness: the two sample requests on a new provider; both return the
    server the first one recorded, and the registry holds that entry only. *)
Lemma no_duplicate_start_witness :
  exists server,
    snd (startAll newProvider (VInt 3050) "dev" twoRequests) =
      [Some ("dev-3050-1700000000000", server);
       Some ("dev-3050-1700000000000", server)] /\
    RunningServer.port server = 3050 /\
    RunningServer.mode server = "dev" /\
    RunningServer.folder server = "" /\
    _runningServers (fst (startAll newProvider (VInt 3050) "dev" twoRequests)) =
      [("dev-3050-1700000000000", server)] /\
    findRunningServerByPort
      (fst (startAll newProvider (VInt 3050) "dev" twoRequests)) 3050
      (Some "dev") = Some ("dev-3050-1700000000000", server).
Proof.
  exact (proj1 (proj2 (proj2
           (no_duplicate_start newProvider (VInt 3050) "dev" reachable_new)))
           {| req_env := sampleEnv; req_folder := VUndefined;
              req_origin := sidebar; req_hasUserSpecifiedPort := VBool false |}
           [{| req_env := laterEnv; req_folder := VStr "site";
               req_origin := browser; req_hasUserSpecifiedPort := VBool true |}]
           "/work/site" "" eq_refl eq_refl eq_refl).
Defined.

(** C1, counterexample: a first call that fails returns no identifier, and
    the second call of the run then records and returns a new entry, both
    when the first call finds no workspace folder open and when its folder
    argument is not a string. *)
Lemma later_start_after_failed_first :
  map (option_map fst)
    (snd (startAll newProvider (VInt 3050) "dev" lateWorkspaceRequests)) =
    [None; Some "dev-3050-1700000001000"] /\
  map fst
    (_runningServers
       (fst (startAll newProvider (VInt 3050) "dev"
               (firstn 1 lateWorkspaceRequests)))) = [] /\
  map fst
    (_runningServers
       (fst (startAll newProvider (VInt 3050) "dev" lateWorkspaceRequests))) =
    ["dev-3050-1700000001000"] /\
  map (option_map fst)
    (snd (startAll newProvider (VInt 3050) "dev" badFolderRequests)) =
    [None; Some "dev-3050-1700000001000"] /\
  map fst
    (_runningServers
       (fst (startAll newProvider (VInt 3050) "dev" badFolderRequests))) =
    ["dev-3050-1700000001000"].
Proof. repeat split; vm_compute; reflexivity. Qed.

(** The two sample requests leave one entry, and both return it. *)
Example two_starts_one_entry :
  map fst (_runningServers (fst (startAll newProvider (VInt 3050) "dev" twoRequests)))
    = ["dev-3050-1700000000000"] /\
  map (option_map fst) (snd (startAll newProvider (VInt 3050) "dev" twoRequests))
    = [Some "dev-3050-1700000000000"; Some "dev-3050-1700000000000"].
Proof. split; vm_compute; reflexivity. Qed.

(** ** The live-preview target *)

Lemma targetConsistent_start this env port mode folder origin hasUserSpecifiedPort :
  targetConsistent this ->
  targetConsistent
    (fst (fst (startHTFlowServer this env port mode folder origin
                 hasUserSpecifiedPort))).
Proof.
  unfold targetConsistent. intros C.
  destruct (startHTFlowServer_registry this env port mode folder origin
              hasUserSpecifiedPort)
    as [([k v] & F & _ & R & [T|T])
       |[(_ & _ & R & T)|(_ & k & v & _ & _ & _ & R & [T|T])]];
    rewrite T, R; auto.
  - right. apply findIn_Some in F. eapply In_Map_has. apply F.
  - destruct (_browserLiveServerId this) as [i|]; auto.
    destruct C as [C|C]; auto. right. now apply Map_has_set_mono.
  - right. apply Map_has_set_same.
Qed.

Lemma targetConsistent_stop this serverId port :
  targetConsistent this ->
  targetConsistent (fst (fst (stopServer this serverId port))).
Proof.
  unfold targetConsistent. intros C.
  destruct (stopServer_cases this serverId port)
    as [[_ E]|[(t & msg & effects & _ & _ & _ & E & _)
              |(t & this0 & effects & _ & _ & _ & E & R & _ & T & _)]];
    rewrite E; simpl; auto.
  rewrite T, R. unfold isTarget.
  destruct (_browserLiveServerId this) as [i|]; auto.
  destruct (String.eqb_spec i serverId) as [->|Hne]; auto.
  destruct C as [C|C]; auto. right.
  rewrite Map_has_delete_other; auto.
Qed.

Lemma targetConsistent_browserReady this :
  targetConsistent (fst (browserReady this)).
Proof.
  unfold targetConsistent, browserReady.
  destruct (_browserLiveServerId this) as [i|] eqn:T; simpl; [|now rewrite T].
  destruct (String.eqb_spec i "") as [->|Hne]; simpl.
  - rewrite T. auto.
  - destruct (Map_get i (_runningServers this)) as [s|] eqn:G; simpl; auto.
    destruct (ensureBrowserPortMapping_fields this (RunningServer.port s))
      as (R & _ & T' & _).
    rewrite T', R, T. right. unfold Map_has. now rewrite G.
Qed.

Lemma liveProvider_reachable : reachable liveProvider.
Proof.
  unfold liveProvider, openProvider.
  eapply reachable_step; [|apply step_start].
  eapply reachable_step; [|apply step_openBrowserPanel].
  eapply reachable_step; [|apply (step_view _ true)].
  apply reachable_new.
Qed.

(** C3, at the failing input: the sample provider, in which the browser
    panel started a dev server, can arise and its live-preview target names
    a registry key; [dispose] returns normally, empties the registry and
    leaves the target as it was, so that afterwards the target names a key
    that the registry does not have. *)
Theorem dispose_leaves_target_dangling :
  reachable liveProvider /\
  targetConsistent liveProvider /\
  snd (dispose liveProvider) = None /\
  _runningServers (fst (fst (dispose liveProvider))) = [] /\
  _browserLiveServerId (fst (fst (dispose liveProvider))) = Some liveId /\
  Map_has liveId (_runningServers (fst (fst (dispose liveProvider)))) = false /\
  ~ targetConsistent (fst (fst (dispose liveProvider))).
Proof.
  split; [exact liveProvider_reachable|].
  split; [right; reflexivity|].
  repeat split.
  intros [C|C]; discriminate.
Qed.

(** In general [dispose], when it returns normally, empties the registry
    and keeps the live-preview target. *)
Lemma dispose_keeps_target this :
  snd (dispose this) = None ->
  _runningServers (fst (fst (dispose this))) = [] /\
  _browserLiveServerId (fst (fst (dispose this))) = _browserLiveServerId this.
Proof.
  intros N. split; [|apply dispose_fields].
  unfold dispose in *.
  destruct (_fileWatcher this);
    match goal with
    | |- context [disposeEach ?t] => destruct (disposeEach t) as [e3 [msg|]]
    end; simpl in *; auto; discriminate.
Qed.

(* ================================================================= *)
(** * Further properties *)

(** ** [ensureBrowserPortMapping] *)

Lemma ensureBrowserPortMapping_panel this port :
  _browserPanel (ensureBrowserPortMapping this port) =
  match _browserPanel this with
  | None => None
  | Some mappings =>
      if existsb (fun mapping => extensionHostPort mapping =? port) mappings
      then Some mappings
      else Some (mappings ++
                 [{| webviewPort := port; extensionHostPort := port |}])%list
  end.
Proof.
  unfold ensureBrowserPortMapping.
  destruct (_browserPanel this) as [mappings|] eqn:P; [|now rewrite P].
  destruct (existsb _ mappings); simpl; auto.
Qed.

Lemma existsb_hostPort port mappings :
  existsb (fun mapping => extensionHostPort mapping =? port) mappings = true <->
  In port (map extensionHostPort mappings).
Proof.
  rewrite existsb_exists, in_map_iff. split.
  - intros (m & Hin & E). apply Z.eqb_eq in E. eauto.
  - intros (m & E & Hin). exists m. split; auto. now apply Z.eqb_eq.
Qed.

(** X1: With no browser panel [ensureBrowserPortMapping] does nothing. With
    one, the port is forwarded afterwards, the mappings there were stay in
    front in their order, a port that was forwarded already adds nothing,
    and a second call changes nothing. *)
Theorem ensureBrowserPortMapping_contract this port :
  (_browserPanel this = None -> ensureBrowserPortMapping this port = this) /\
  (forall mappings, _browserPanel this = Some mappings ->
     In port (forwardedPorts (ensureBrowserPortMapping this port)) /\
     (exists added,
        _browserPanel (ensureBrowserPortMapping this port) =
          Some (mappings ++ added)%list /\
        (In port (map extensionHostPort mappings) -> added = []) /\
        (~ In port (map extensionHostPort mappings) ->
         added = [{| webviewPort := port; extensionHostPort := port |}]))) /\
  ensureBrowserPortMapping (ensureBrowserPortMapping this port) port =
    ensureBrowserPortMapping this port.
Proof.
  split; [|split].
  - intros P. unfold ensureBrowserPortMapping. now rewrite P.
  - intros mappings P. unfold forwardedPorts.
    rewrite ensureBrowserPortMapping_panel, P.
    destruct (existsb _ mappings) eqn:E.
    + split; [now apply existsb_hostPort|].
      exists []. rewrite app_nil_r. repeat split; auto.
      intros N. exfalso. apply N. now apply existsb_hostPort.
    + split.
      * rewrite map_app. apply in_or_app. right. simpl. auto.
      * eexists. split; [reflexivity|]. split; auto.
        intros Hin. apply existsb_hostPort in Hin. congruence.
  - unfold ensureBrowserPortMapping at 1.
    rewrite ensureBrowserPortMapping_panel.
    destruct (_browserPanel this) as [mappings|] eqn:P; auto.
    destruct (existsb _ mappings) eqn:E.
    + now rewrite E.
    + rewrite existsb_app. simpl. rewrite Z.eqb_refl.
      now rewrite orb_true_r.
Qed.

(** X1, witness: the sample provider with a live server on port 3000. *)
Lemma ensureBrowserPortMapping_contract_witness :
  In 3000 (forwardedPorts (ensureBrowserPortMapping liveProvider 3000)) /\
  exists added,
    _browserPanel (ensureBrowserPortMapping liveProvider 3000) =
      Some ([{| webviewPort := 3000; extensionHostPort := 3000 |}] ++ added)%list /\
    (In 3000 (map extensionHostPort
                [{| webviewPort := 3000; extensionHostPort := 3000 |}]) ->
     added = []) /\
    (~ In 3000 (map extensionHostPort
                  [{| webviewPort := 3000; extensionHostPort := 3000 |}]) ->
     added = [{| webviewPort := 3000; extensionHostPort := 3000 |}]).
Proof.
  exact (proj1 (proj2 (ensureBrowserPortMapping_contract liveProvider 3000))
           [{| webviewPort := 3000; extensionHostPort := 3000 |}] eq_refl).
Defined.

(** ** [startHTFlowServer], path by path *)

Lemma start_finds this env port mode folder origin hasUserSpecifiedPort
    serverId server :
  findRunningServerByPort this (normalizePort (portParameter port) mode)
    (Some mode) = Some (serverId, server) ->
  startHTFlowServer this env port mode folder origin hasUserSpecifiedPort =
  (if Origin_eqb origin browser
   then ensureBrowserPortMapping
          (set_browserLiveServerId (Some serverId) this)
          (RunningServer.port server)
   else this,
   Some (serverId, server),
   [TerminalShow (RunningServer.terminal server);
    if Origin_eqb origin browser
    then SetStatusBarMessage
           ("HTFlow server already running on port " ++
            string_of_Z (RunningServer.port server)) 4000
    else ShowInformationMessage
           ("HTFlow " ++ RunningServer.mode server ++
            " server already running on port " ++
            string_of_Z (RunningServer.port server))]).
Proof.
  intros F. unfold startHTFlowServer. rewrite F.
  destruct (Origin_eqb origin browser); reflexivity.
Qed.

Lemma start_without_workspace this env port mode folder origin
    hasUserSpecifiedPort :
  findRunningServerByPort this (normalizePort (portParameter port) mode)
    (Some mode) = None ->
  workspaceFolder env = None ->
  startHTFlowServer this env port mode folder origin hasUserSpecifiedPort =
  (this, None,
   [ShowErrorMessage "Cannot start HTFlow server: no workspace folder is open"]).
Proof. intros F W. unfold startHTFlowServer. now rewrite F, W. Qed.

Lemma start_bad_folder this env port mode folder origin hasUserSpecifiedPort
    fsPath :
  let normalizedPort := normalizePort (portParameter port) mode in
  findRunningServerByPort this normalizedPort (Some mode) = None ->
  workspaceFolder env = Some fsPath ->
  folderValueOf folder = None ->
  fst (startHTFlowServer this env port mode folder origin hasUserSpecifiedPort) =
  (set_terminals
     (Map_set (serverIdFor mode normalizedPort (dateNow env))
        (Terminal.make
           ("HTFlow Server (" ++ mode ++ ":" ++ string_of_Z normalizedPort ++ ")")
           fsPath (newTerminalInterruptThrows env) (newTerminalDisposeThrows env))
        (_terminals this)) this,
   None).
Proof.
  intros normalizedPort F W D.
  unfold startHTFlowServer. fold normalizedPort. now rewrite F, W, D.
Qed.

(** ** What one step does to each field *)

Lemma In_Map_set {V : Type} (k k' : string) (v v' : V) (m : JsMap V) :
  In (k', v') (Map_set k v m) -> (k', v') = (k, v) \/ In (k', v') m.
Proof.
  induction m as [|[k0 v0] r IH]; simpl.
  - intros [E|[]]. auto.
  - destruct (k0 =? k)%string; simpl.
    + intros [E|Hin]; auto.
    + intros [E|Hin]; auto. destruct (IH Hin); auto.
Qed.

Lemma In_Map_delete {V : Type} (k : string) (e : string * V) (m : JsMap V) :
  In e (Map_delete k m) -> In e m.
Proof.
  induction m as [|[k0 v0] r IH]; simpl; [tauto|].
  destruct (k0 =? k)%string; simpl; [auto|].
  intros [E|Hin]; auto.
Qed.

Lemma Map_has_set {V : Type} (k k' : string) (v : V) (m : JsMap V) :
  Map_has k' (Map_set k v m) = ((k =? k')%string || Map_has k' m)%bool.
Proof.
  destruct (String.eqb_spec k k') as [->|Hne]; simpl.
  - apply Map_has_set_same.
  - unfold Map_has. now rewrite Map_get_set_other.
Qed.

Lemma Map_has_delete {V : Type} (k k' : string) (m : JsMap V) :
  Map_has k' (Map_delete k m) = (negb (k =? k')%string && Map_has k' m)%bool.
Proof.
  destruct (String.eqb_spec k k') as [->|Hne]; simpl.
  - apply Map_has_delete_same.
  - now apply Map_has_delete_other.
Qed.

Lemma normalizePort_range port mode : 1 <= normalizePort port mode <= 65535.
Proof.
  unfold normalizePort.
  destruct port as [| |b|[q| | |]|s]; try apply clampPort_range;
    destruct (defaultPort_cases mode) as [[_ E]|[[_ E]|(_ & _ & E)]];
    rewrite E; lia.
Qed.

(** The two maps after a start: the registry is untouched, with at most a
    terminal added, or the new server and its terminal are recorded under
    the identifier of the mode, the port and the time. *)
Lemma start_maps this env port mode folder origin hasUserSpecifiedPort :
  let normalizedPort := normalizePort (portParameter port) mode in
  let serverId := serverIdFor mode normalizedPort (dateNow env) in
  let this' :=
    fst (fst (startHTFlowServer this env port mode folder origin
                hasUserSpecifiedPort)) in
  (_runningServers this' = _runningServers this /\
   (_terminals this' = _terminals this \/
    exists t, _terminals this' = Map_set serverId t (_terminals this)))
  \/
  (exists server,
     RunningServer.port server = normalizedPort /\
     RunningServer.mode server = mode /\
     RunningServer.origin server = origin /\
     _runningServers this' = Map_set serverId server (_runningServers this) /\
     _terminals this' =
       Map_set serverId (RunningServer.terminal server) (_terminals this)).
Proof.
  intros normalizedPort serverId this'. subst this'.
  destruct (findRunningServerByPort this normalizedPort (Some mode))
    as [[k v]|] eqn:F.
  - left. rewrite (start_finds _ _ _ _ _ _ _ _ _ F). cbn [fst].
    destruct (Origin_eqb origin browser); auto.
    destruct (ensureBrowserPortMapping_fields
                (set_browserLiveServerId (Some k) this) (RunningServer.port v))
      as (R & T & _). rewrite R, T. auto.
  - destruct (workspaceFolder env) as [fsPath|] eqn:W.
    + destruct (folderValueOf folder) as [folderValue|] eqn:D.
      * right.
        rewrite (start_spawn_state _ _ _ _ _ _ _ _ _ F W D). cbn [fst].
        eexists. split; [|split; [|split; [|split]]].
        4:{ destruct (Origin_eqb origin browser).
            - match goal with
              | |- context [ensureBrowserPortMapping ?p ?q] =>
                  destruct (ensureBrowserPortMapping_fields p q) as (R & _)
              end.
              rewrite R. reflexivity.
            - reflexivity. }
        all: try reflexivity.
        destruct (Origin_eqb origin browser).
        -- match goal with
           | |- context [ensureBrowserPortMapping ?p ?q] =>
               destruct (ensureBrowserPortMapping_fields p q) as (_ & T & _)
           end.
           rewrite T. reflexivity.
        -- reflexivity.
      * left. rewrite (start_bad_folder _ _ _ _ _ _ _ _ F W D). cbn [fst].
        split; [reflexivity|]. right. eexists. reflexivity.
    + left. rewrite (start_without_workspace _ _ _ _ _ _ _ F W). auto.
Qed.

(** The browser panel after a start: as it was, or with one port ensured. *)
Lemma start_panel this env port mode folder origin hasUserSpecifiedPort :
  let this' :=
    fst (fst (startHTFlowServer this env port mode folder origin
                hasUserSpecifiedPort)) in
  _browserPanel this' = _browserPanel this \/
  exists p, _browserPanel this' = _browserPanel (ensureBrowserPortMapping this p).
Proof.
  intros this'. subst this'.
  destruct (findRunningServerByPort this (normalizePort (portParameter port) mode)
              (Some mode)) as [[k v]|] eqn:F.
  - rewrite (start_finds _ _ _ _ _ _ _ _ _ F). cbn [fst].
    destruct (Origin_eqb origin browser); auto.
    right. exists (RunningServer.port v).
    now rewrite !ensureBrowserPortMapping_panel.
  - destruct (workspaceFolder env) as [fsPath|] eqn:W.
    + destruct (folderValueOf folder) as [folderValue|] eqn:D.
      * rewrite (start_spawn_state _ _ _ _ _ _ _ _ _ F W D). cbn [fst].
        destruct (Origin_eqb origin browser); auto.
        right. eexists. now rewrite !ensureBrowserPortMapping_panel.
      * rewrite (start_bad_folder _ _ _ _ _ _ _ _ F W D). auto.
    + rewrite (start_without_workspace _ _ _ _ _ _ _ F W). auto.
Qed.

Lemma stopServer_surfaces this serverId port :
  _browserPanel (fst (fst (stopServer this serverId port))) = _browserPanel this /\
  _view (fst (fst (stopServer this serverId port))) = _view this /\
  _currentPanel (fst (fst (stopServer this serverId port))) = _currentPanel this.
Proof.
  unfold stopServer.
  destruct (notFound this serverId); [auto|].
  destruct (terminalOf this serverId) as [t|];
    [destruct (Terminal.disposeThrows t); [auto|]|];
    cbn [fst]; rewrite ?isTarget_fields;
    match goal with
    | |- context [isTarget ?p ?i] => destruct (isTarget p i)
    end; auto.
Qed.

Lemma dispose_maps this :
  _browserPanel (fst (fst (dispose this))) = None /\
  ((_runningServers (fst (fst (dispose this))) = _runningServers this /\
    _terminals (fst (fst (dispose this))) = _terminals this /\
    snd (dispose this) <> None) \/
   (_runningServers (fst (fst (dispose this))) = [] /\
    _terminals (fst (fst (dispose this))) = [] /\
    snd (dispose this) = None)).
Proof.
  unfold dispose.
  destruct (_fileWatcher this);
    match goal with
    | |- context [disposeEach ?t] => destruct (disposeEach t) as [e3 [msg|]]
    end; simpl; split; auto; left; repeat split; auto; discriminate.
Qed.

Lemma browserReady_panel this :
  _terminals (fst (browserReady this)) = _terminals this /\
  (_browserPanel (fst (browserReady this)) = _browserPanel this \/
   exists p,
     _browserPanel (fst (browserReady this)) =
       _browserPanel (ensureBrowserPortMapping this p)).
Proof.
  unfold browserReady.
  destruct (_browserLiveServerId this) as [i|]; auto.
  destruct (i =? "")%string; auto.
  destruct (Map_get i (_runningServers this)) as [s|]; auto.
  simpl. split; [apply ensureBrowserPortMapping_fields|]. right. eauto.
Qed.

(** ** Invariants of the registry *)

(** The registry after one step: as it was, with one entry set, with one
    key deleted, or empty. *)
Lemma Step_registry this this' :
  Step this this' ->
  _runningServers this' = _runningServers this \/
  (exists mode port now server,
     RunningServer.port server = normalizePort port mode /\
     RunningServer.mode server = mode /\
     _runningServers this' =
       Map_set (serverIdFor mode (normalizePort port mode) now) server
         (_runningServers this)) \/
  (exists serverId,
     _runningServers this' = Map_delete serverId (_runningServers this)) \/
  _runningServers this' = [].
Proof.
  intros S.
  destruct S as [this env port mode folder origin has|this serverId port|this
                |this|this b|this b|this|this]; auto.
  - destruct (start_maps this env port mode folder origin has)
      as [[R _]|(server & P & M & _ & R & _)]; auto.
    right. left. exists mode, (portParameter port), (dateNow env), server. auto.
  - destruct (stopServer_cases this serverId port)
      as [[_ E]|[(t & msg & effects & _ & _ & _ & E & _)
                |(t & this0 & effects & _ & _ & _ & E & R & _)]];
      rewrite E; simpl; auto.
    right. right. left. eauto.
  - destruct (dispose_maps this) as [_ [(R & _)|(R & _)]]; auto.
  - left. apply browserReady_fields.
Qed.

(** X3: Every server in the registry of a provider that can arise has a port
    between 1 and 65535. *)
Theorem registry_ports_in_range this :
  reachable this ->
  forall serverId server,
    In (serverId, server) (_runningServers this) ->
    1 <= RunningServer.port server <= 65535.
Proof.
  induction 1 as [|this this' _ IH S]; [intros ? ? []|].
  intros serverId server Hin.
  destruct (Step_registry _ _ S)
    as [R|[(mode & port & now & v & P & _ & R)|[(k & R)|R]]];
    rewrite R in Hin.
  - eauto.
  - apply In_Map_set in Hin. destruct Hin as [[= -> ->]|Hin]; [|eauto].
    rewrite P. apply normalizePort_range.
  - apply In_Map_delete in Hin. eauto.
  - destruct Hin.
Qed.

(** X3, witness: the sample provider. *)
Lemma registry_ports_in_range_witness :
  1 <= RunningServer.port liveServer <= 65535.
Proof.
  exact (registry_ports_in_range liveProvider liveProvider_reachable liveId
           liveServer (or_introl eq_refl)).
Defined.

(** X5: Every key of the registry of a provider that can arise is the
    identifier built from the mode and the port of its entry and a launch
    time: "<mode>-<port>-<time>". *)
Theorem registry_keys_name_their_entry this :
  reachable this -> keysNameTheirEntry this.
Proof.
  unfold keysNameTheirEntry.
  induction 1 as [|this this' _ IH S]; [intros ? ? []|].
  intros serverId server Hin.
  destruct (Step_registry _ _ S)
    as [R|[(mode & port & now & v & P & M & R)|[(k & R)|R]]];
    rewrite R in Hin.
  - eauto.
  - apply In_Map_set in Hin. destruct Hin as [[= -> ->]|Hin]; [|eauto].
    exists now. now rewrite P, M.
  - apply In_Map_delete in Hin. eauto.
  - destruct Hin.
Qed.

(** X5, witness: the sample provider. *)
Lemma registry_keys_name_their_entry_witness :
  exists now,
    liveId =
      serverIdFor (RunningServer.mode liveServer) (RunningServer.port liveServer)
        now.
Proof.
  exact (registry_keys_name_their_entry liveProvider liveProvider_reachable
           liveId liveServer (or_introl eq_refl)).
Defined.

(** X4: In a provider that can arise, every identifier with a registry entry has
    a terminal handle. *)
Theorem registry_keys_have_terminals this :
  reachable this ->
  forall serverId,
    Map_has serverId (_runningServers this) = true ->
    Map_has serverId (_terminals this) = true.
Proof.
  induction 1 as [|this this' _ IH S]; [discriminate|].
  intros serverId.
  destruct S as [this env port mode folder origin has|this k port|this
                |this|this b|this b|this|this]; try apply IH.
  - destruct (start_maps this env port mode folder origin has)
      as [[R [T|[t T]]]|(server & _ & _ & _ & R & T)]; rewrite R, T; auto.
    + intros Hr. apply Map_has_set_mono. auto.
    + rewrite !Map_has_set. intros Hr.
      apply orb_true_iff in Hr. apply orb_true_iff.
      destruct Hr; auto.
  - destruct (stopServer_cases this k port)
      as [[_ E]|[(t & msg & effects & _ & _ & _ & E & _)
                |(t & this0 & effects & _ & _ & _ & E & R & T & _)]];
      rewrite E; simpl; auto.
    rewrite R, T, !Map_has_delete. intros Hr.
    apply andb_true_iff in Hr. destruct Hr as [Hk Hr].
    rewrite Hk. simpl. auto.
  - destruct (dispose_maps this) as [_ [(R & T & _)|(R & T & _)]];
      rewrite R, T; auto.
  - rewrite browserReady_fields.
    destruct (browserReady_panel this) as [T _]. rewrite T. auto.
Qed.

(** X4, witness: the sample provider. *)
Lemma registry_keys_have_terminals_witness :
  Map_has liveId (_terminals liveProvider) = true.
Proof.
  exact (registry_keys_have_terminals liveProvider liveProvider_reachable liveId
           eq_refl).
Defined.

(** ** The port mappings of the browser panel *)

Lemma mappings_after_ensure this p :
  mappingsWellFormed this ->
  match _browserPanel (ensureBrowserPortMapping this p) with
  | Some mappings =>
      Forall (fun mapping => webviewPort mapping = extensionHostPort mapping)
             mappings /\
      NoDup (map extensionHostPort mappings)
  | None => True
  end.
Proof.
  unfold mappingsWellFormed. rewrite ensureBrowserPortMapping_panel.
  destruct (_browserPanel this) as [mappings|]; auto.
  intros [F N]. destruct (existsb _ mappings) eqn:E; [auto|].
  split.
  - apply Forall_app. split; auto.
  - rewrite map_app. simpl.
    assert (Hn : ~ In p (map extensionHostPort mappings)).
    { intros Hin. apply existsb_hostPort in Hin. congruence. }
    clear E F. induction (map extensionHostPort mappings) as [|x l IHl]; simpl.
    + constructor; [tauto|constructor].
    + inversion N; subst. constructor.
      * intros Hin. apply in_app_or in Hin. destruct Hin as [Hin|[->|[]]]; auto.
        apply Hn. simpl. auto.
      * apply IHl; auto. intros Hin. apply Hn. simpl. auto.
Qed.

(** X2: In a provider that can arise, every port mapping of the browser panel
    forwards a port to itself, and no port is mapped twice. *)
Theorem port_mappings_well_formed this :
  reachable this -> mappingsWellFormed this.
Proof.
  induction 1 as [|this this' _ IH S]; [exact I|].
  destruct S as [this env port mode folder origin has|this k port|this
                |this|this b|this b|this|this]; try exact IH.
  - unfold mappingsWellFormed.
    destruct (start_panel this env port mode folder origin has) as [P|[p P]];
      rewrite P; [exact IH|now apply mappings_after_ensure].
  - unfold mappingsWellFormed.
    destruct (stopServer_surfaces this k port) as [P _]. rewrite P. exact IH.
  - unfold mappingsWellFormed.
    destruct (dispose_maps this) as [P _]. now rewrite P.
  - unfold mappingsWellFormed.
    destruct (browserReady_panel this) as [_ [P|[p P]]];
      rewrite P; [exact IH|now apply mappings_after_ensure].
  - split; constructor.
  - exact I.
Qed.

(** X2, witness: the sample provider. *)
Lemma port_mappings_well_formed_witness : mappingsWellFormed liveProvider.
Proof. exact (port_mappings_well_formed liveProvider liveProvider_reachable). Defined.

(** ** The live-preview target, step by step *)

(** X6: Every step other than [dispose] keeps the live-preview target
    consistent: a target that names a registry key still names one after a
    start, a stop, a [browserReady] message, or a surface that opens or
    closes. *)
Theorem target_kept_by_steps this this' :
  Step this this' ->
  targetConsistent this ->
  targetConsistent this' \/ this' = fst (fst (dispose this)).
Proof.
  intros S C.
  destruct S as [this env port mode folder origin has|this k port|this
                |this|this b|this b|this|this]; auto.
  - left. now apply targetConsistent_start.
  - left. now apply targetConsistent_stop.
  - left. apply targetConsistent_browserReady.
Qed.

(** X6, witness: the sample provider. *)
Lemma target_kept_by_steps_witness :
  targetConsistent (fst (fst (stopServer liveProvider liveId None))) \/
  fst (fst (stopServer liveProvider liveId None)) =
    fst (fst (dispose liveProvider)).
Proof.
  exact (target_kept_by_steps liveProvider _ (step_stop liveProvider liveId None)
           (or_intror eq_refl)).
Defined.

(** ** [startHTFlowServer]: what it tells and to whom *)

Lemma posted_postIf b target msg :
  posted (postIf b target msg) = if b then [(target, msg)] else [].
Proof. now destruct b. Qed.

Lemma scheduled_app e1 e2 :
  scheduled (e1 ++ e2) = (scheduled e1 ++ scheduled e2)%list.
Proof.
  induction e1 as [|e r IH]; simpl; auto.
  destruct e; simpl; auto. now rewrite IH.
Qed.

Lemma scheduled_postIf b target msg : scheduled (postIf b target msg) = [].
Proof. now destruct b. Qed.

Lemma ensureBrowserPortMapping_has this port :
  hasBrowserPanel (ensureBrowserPortMapping this port) = hasBrowserPanel this.
Proof.
  unfold hasBrowserPanel. rewrite ensureBrowserPortMapping_panel.
  destruct (_browserPanel this) as [m|]; auto.
  now destruct (existsb _ m).
Qed.

Lemma ensure_forwards this port mappings :
  _browserPanel this = Some mappings ->
  In port (forwardedPorts (ensureBrowserPortMapping this port)).
Proof.
  intros P. unfold forwardedPorts. rewrite ensureBrowserPortMapping_panel, P.
  destruct (existsb _ mappings) eqn:E.
  - now apply existsb_hostPort.
  - rewrite map_app. apply in_or_app. right. simpl. auto.
Qed.

(** The effects of a spawn. *)
Lemma start_spawn_effects this env port mode folder origin hasUserSpecifiedPort
    fsPath folderValue :
  let run := startHTFlowServer this env port mode folder origin
               hasUserSpecifiedPort in
  findRunningServerByPort this (normalizePort (portParameter port) mode)
    (Some mode) = None ->
  workspaceFolder env = Some fsPath ->
  folderValueOf folder = Some folderValue ->
  exists serverId server,
    snd (fst run) = Some (serverId, server) /\
    posted (snd run) =
      map (fun target => (target, serverStarted serverId (payloadOf server)))
          (lifecycleSurfaces this) /\
    scheduled (snd run) =
      (if Origin_eqb origin browser then []
       else [(3000,
              "http://localhost:" ++ string_of_Z (RunningServer.port server))]).
Proof.
  intros run F W D. subst run. unfold startHTFlowServer. rewrite F, W, D.
  do 2 eexists. split; [reflexivity|]. cbn [snd fst].
  split.
  - cbn [posted app]. rewrite !posted_app, !posted_postIf.
    unfold lifecycleSurfaces, hasBrowserPanel.
    destruct (Origin_eqb origin browser);
      cbn [_view _browserPanel set_browserLiveServerId set_runningServers
           set_terminals posted app];
      destruct (_view this), (_browserPanel this); reflexivity.
  - cbn [scheduled app]. rewrite !scheduled_app, !scheduled_postIf.
    destruct (Origin_eqb origin browser); reflexivity.
Qed.

(** X7: [startHTFlowServer] posts only when it spawns a server: then
    [serverStarted], with the identifier and the port, mode, folder and
    start time of the new entry, goes to the sidebar view and to the browser
    panel, each when it exists, and to no other surface. A request that
    reuses a running server or fails posts nothing, sends nothing to a
    terminal and schedules no browser opening. *)
Theorem start_posts_only_on_spawn this env port mode folder origin
    hasUserSpecifiedPort :
  let run := startHTFlowServer this env port mode folder origin
               hasUserSpecifiedPort in
  match findRunningServerByPort this (normalizePort (portParameter port) mode)
          (Some mode), snd (fst run) with
  | None, Some (serverId, server) =>
      posted (snd run) =
        map (fun target => (target, serverStarted serverId (payloadOf server)))
            (lifecycleSurfaces this)
  | _, _ =>
      posted (snd run) = [] /\ sentTexts (snd run) = [] /\
      scheduled (snd run) = []
  end.
Proof.
  intros run. subst run.
  destruct (findRunningServerByPort this _ (Some mode)) as [[k v]|] eqn:F.
  - rewrite (start_finds _ _ _ _ _ _ _ _ _ F). cbn [snd fst].
    destruct (Origin_eqb origin browser); auto.
  - destruct (workspaceFolder env) as [fsPath|] eqn:W.
    + destruct (folderValueOf folder) as [folderValue|] eqn:D.
      * destruct (start_spawn_effects this env port mode folder origin
                    hasUserSpecifiedPort fsPath folderValue F W D)
          as (serverId & server & S & P & _).
        rewrite S. exact P.
      * unfold startHTFlowServer. rewrite F, W, D. cbn [snd fst]. auto.
    + rewrite (start_without_workspace _ _ _ _ _ _ _ F W). cbn [snd fst]. auto.
Qed.

(** X8: A request from the sidebar never touches the live-preview target nor
    the port mappings, and when it spawns a server it schedules the browser
    to open "http://localhost:<port>" after 3000 ms. A request from the
    browser panel that returns a server makes it the live-preview target,
    forwards its port when the panel is open, and schedules nothing. *)
Theorem start_by_origin this env port mode folder hasUserSpecifiedPort :
  let fromSidebar := startHTFlowServer this env port mode folder sidebar
                       hasUserSpecifiedPort in
  let fromBrowser := startHTFlowServer this env port mode folder browser
                       hasUserSpecifiedPort in
  _browserLiveServerId (fst (fst fromSidebar)) = _browserLiveServerId this /\
  _browserPanel (fst (fst fromSidebar)) = _browserPanel this /\
  (forall serverId server,
     findRunningServerByPort this (normalizePort (portParameter port) mode)
       (Some mode) = None ->
     snd (fst fromSidebar) = Some (serverId, server) ->
     scheduled (snd fromSidebar) =
       [(3000, "http://localhost:" ++ string_of_Z (RunningServer.port server))]) /\
  scheduled (snd fromBrowser) = [] /\
  (forall serverId server,
     snd (fst fromBrowser) = Some (serverId, server) ->
     _browserLiveServerId (fst (fst fromBrowser)) = Some serverId /\
     (hasBrowserPanel this = true ->
      In (RunningServer.port server) (forwardedPorts (fst (fst fromBrowser))))).
Proof.
  intros fromSidebar fromBrowser. subst fromSidebar fromBrowser.
  destruct (findRunningServerByPort this (normalizePort (portParameter port) mode)
              (Some mode)) as [[k v]|] eqn:F.
  - rewrite !(start_finds _ _ _ _ _ _ _ _ _ F). cbn [fst snd Origin_eqb].
    repeat split; try discriminate.
    + destruct (ensureBrowserPortMapping_fields
                  (set_browserLiveServerId (Some k) this) (RunningServer.port v))
        as (_ & _ & T & _).
      injection H as <- <-. exact T.
    + injection H as <- <-. intros Hp. unfold hasBrowserPanel in Hp.
      destruct (_browserPanel this) as [m|] eqn:P; [|discriminate].
      apply ensure_forwards with (mappings := m). exact P.
  - destruct (workspaceFolder env) as [fsPath|] eqn:W.
    + destruct (folderValueOf folder) as [folderValue|] eqn:D.
      * pose proof (start_spawn_state this env port mode folder sidebar
                      hasUserSpecifiedPort fsPath folderValue F W D) as Ss.
        pose proof (start_spawn_state this env port mode folder browser
                      hasUserSpecifiedPort fsPath folderValue F W D) as Sb.
        cbv zeta in Ss, Sb. cbn [Origin_eqb] in Ss, Sb.
        destruct (start_spawn_effects this env port mode folder sidebar
                    hasUserSpecifiedPort fsPath folderValue F W D)
          as (i1 & s1 & R1 & _ & O1).
        destruct (start_spawn_effects this env port mode folder browser
                    hasUserSpecifiedPort fsPath folderValue F W D)
          as (i2 & s2 & R2 & _ & O2).
        cbn [Origin_eqb] in O1, O2.
        destruct (startHTFlowServer this env port mode folder sidebar
                    hasUserSpecifiedPort) as [[ps rs] es].
        destruct (startHTFlowServer this env port mode folder browser
                    hasUserSpecifiedPort) as [[pb rb] eb].
        cbn [fst snd] in *. injection Ss as -> _. injection Sb as -> Rb.
        repeat split; auto.
        -- intros serverId server _ E. rewrite R1 in E.
           injection E as <- <-. exact O1.
        -- rewrite Rb in H. injection H as <- _.
           match goal with
           | |- context [ensureBrowserPortMapping ?p ?q] =>
               destruct (ensureBrowserPortMapping_fields p q) as (_ & _ & T & _)
           end.
           exact T.
        -- rewrite Rb in H. injection H as _ <-. intros Hp.
           unfold hasBrowserPanel in Hp.
           destruct (_browserPanel this) as [m|] eqn:P; [|discriminate].
           cbn [RunningServer.port].
           apply ensure_forwards with (mappings := m). exact P.
      * unfold startHTFlowServer. rewrite F, W, D. cbn [fst snd].
        repeat split; discriminate.
    + rewrite !(start_without_workspace _ _ _ _ _ _ _ F W). cbn [fst snd].
      repeat split; discriminate.
Qed.

(** X8, witness: the start that made the sample provider. *)
Lemma start_by_origin_witness :
  _browserLiveServerId liveProvider = Some liveId /\
  In 3000 (forwardedPorts liveProvider).
Proof.
  exact (let H :=
           proj2 (proj2 (proj2 (proj2
             (start_by_origin openProvider sampleEnv (VInt 3000) "dev"
                VUndefined (VBool true)))))
             liveId liveServer eq_refl in
         conj (proj1 H) (proj2 H eq_refl)).
Defined.

(** ** [stopServer]: what it leaves alone and what it tells *)

(** A stop that goes through, in full. *)
Lemma stopServer_success this serverId port t :
  known this serverId = true ->
  terminalOf this serverId = Some t ->
  Terminal.disposeThrows t = None ->
  let resolvedPort :=
    nullish port (option_map RunningServer.port
                    (Map_get serverId (_runningServers this))) in
  exists this' effects,
    stopServer this serverId port = (this', true, effects) /\
    posted effects =
      (map (fun target => (target, serverStopped serverId resolvedPort))
           (lifecycleSurfaces this) ++
       (if isTarget this serverId && hasBrowserPanel this
        then [(BrowserPanel, liveServerStopped)] else []))%list.
Proof.
  intros K Ht D resolvedPort. unfold known in K. apply negb_true_iff in K.
  unfold stopServer. rewrite K, Ht, D. fold resolvedPort.
  rewrite isTarget_fields.
  do 2 eexists. split.
  - reflexivity.
  - rewrite !posted_app, !posted_postIf.
    unfold lifecycleSurfaces, hasBrowserPanel.
    cbn [_view _browserPanel set_runningServers set_terminals].
    assert (P0 : posted
              (match Terminal.interruptThrows t with
               | Some _ =>
                   [ConsoleLog ("HTFlow: Unable to send interrupt to server " ++
                                serverId ++ ":")]
               | None => [TerminalSendText t (String "003"%char "") false]
               end) = [])
      by (destruct (Terminal.interruptThrows t); reflexivity).
    rewrite P0.
    assert (P1 : forall (c : bool) a b, posted [if c then SetStatusBarMessage a 3000
                                         else ShowInformationMessage b] = [])
      by (intros [] ? ?; reflexivity).
    rewrite P1.
    destruct (isTarget this serverId), (_view this), (_browserPanel this);
      reflexivity.
Qed.

(** X11: [stopServer] touches one identifier only: every other identifier keeps
    its registry entry and its terminal handle, and the live-preview target
    stays unless it is the identifier that was stopped. *)
Theorem stopServer_frame this serverId port other :
  other <> serverId ->
  let this' := fst (fst (stopServer this serverId port)) in
  Map_get other (_runningServers this') = Map_get other (_runningServers this) /\
  Map_get other (_terminals this') = Map_get other (_terminals this) /\
  (_browserLiveServerId this = Some other ->
   _browserLiveServerId this' = Some other).
Proof.
  intros Hne this'. subst this'.
  destruct (stopServer_cases this serverId port)
    as [[_ E]|[(t & msg & effects & _ & _ & _ & E & _)
              |(t & this0 & effects & _ & _ & _ & E & R & T & G & _)]];
    rewrite E; cbn [fst]; auto.
  rewrite R, T, G.
  rewrite !Map_get_delete_other by congruence.
  repeat split. intros Tg. unfold isTarget. rewrite Tg.
  destruct (String.eqb_spec other serverId); [contradiction|reflexivity].
Qed.

(** X11, witness: with two servers recorded, stopping the second leaves the
    first one's registry entry and terminal handle in place, and the first
    stays the live-preview target. *)
Lemma stopServer_frame_witness :
  Map_get liveId
    (_runningServers (fst (fst (stopServer twoServerProvider secondId None)))) =
    Some liveServer /\
  Map_get liveId
    (_terminals (fst (fst (stopServer twoServerProvider secondId None)))) =
    Some (RunningServer.terminal liveServer) /\
  _browserLiveServerId (fst (fst (stopServer twoServerProvider secondId None))) =
    Some liveId /\
  Map_has secondId (_runningServers twoServerProvider) = true /\
  Map_has secondId
    (_runningServers (fst (fst (stopServer twoServerProvider secondId None)))) =
    false.
Proof.
  pose proof (stopServer_frame twoServerProvider secondId None liveId) as H.
  cbv zeta in H.
  destruct H as (R & T & G); [discriminate|].
  split; [rewrite R; reflexivity|].
  split; [rewrite T; reflexivity|].
  split; [apply G; reflexivity|].
  split; reflexivity.
Defined.

(** X12: When [stopServer] goes through, [serverStopped] with the identifier
    goes to the sidebar view and to the browser panel, each when it exists;
    it carries the port of the request when one was given and the port of
    the registry entry otherwise. [liveServerStopped] follows, to the browser
    panel, exactly when the identifier was the live-preview target. Nothing
    else is posted. *)
Theorem stopServer_broadcast this serverId port this' effects :
  stopServer this serverId port = (this', true, effects) ->
  posted effects =
    (map (fun target =>
            (target,
             serverStopped serverId
               match port with
               | Some p => Some p
               | None =>
                   option_map RunningServer.port
                     (Map_get serverId (_runningServers this))
               end))
         (lifecycleSurfaces this) ++
     (if isTarget this serverId && hasBrowserPanel this
      then [(BrowserPanel, liveServerStopped)] else []))%list.
Proof.
  intros S.
  destruct (stopServer_cases this serverId port)
    as [[_ E]|[(t & msg & effects0 & _ & _ & _ & E & _)
              |(t & this0 & effects0 & K & Ht & D & _)]];
    try (rewrite E in S; discriminate).
  destruct (stopServer_success this serverId port t K Ht D) as (p' & e & E & P).
  rewrite E in S. injection S as _ <-.
  rewrite P. now destruct port.
Qed.

(** X12, witness: the sample provider. *)
Lemma stopServer_broadcast_witness :
  posted (snd (stopServer liveProvider liveId (Some 8080))) =
    [(SidebarView, serverStopped liveId (Some 8080));
     (BrowserPanel, serverStopped liveId (Some 8080));
     (BrowserPanel, liveServerStopped)].
Proof.
  exact (stopServer_broadcast liveProvider liveId (Some 8080) _ _ eq_refl).
Defined.

(** ** Start, then stop *)

Lemma Map_delete_fresh {V : Type} (k : string) (m : JsMap V) :
  Map_has k m = false -> Map_delete k m = m.
Proof.
  unfold Map_has. induction m as [|[k0 v0] r IH]; simpl; auto.
  destruct (k0 =? k)%string; [discriminate|].
  intros H. now rewrite IH.
Qed.

Lemma Map_delete_set_fresh {V : Type} (k : string) (v : V) (m : JsMap V) :
  Map_has k m = false -> Map_delete k (Map_set k v m) = m.
Proof.
  unfold Map_has. induction m as [|[k0 v0] r IH]; simpl.
  - now rewrite String.eqb_refl.
  - destruct (k0 =? k)%string eqn:E; [discriminate|].
    intros H. simpl. rewrite E. now rewrite IH.
Qed.

(** X9: A server that was spawned under an identifier that was free, and whose
    terminal can be disposed, is removed again by [stopServer]: the call
    returns [true] and the registry and the terminal map are the ones from
    before the start. *)
Theorem start_then_stop this env port mode folder origin hasUserSpecifiedPort
    fsPath folderValue portHint :
  let normalizedPort := normalizePort (portParameter port) mode in
  let serverId := serverIdFor mode normalizedPort (dateNow env) in
  let started :=
    fst (fst (startHTFlowServer this env port mode folder origin
                hasUserSpecifiedPort)) in
  findRunningServerByPort this normalizedPort (Some mode) = None ->
  workspaceFolder env = Some fsPath ->
  folderValueOf folder = Some folderValue ->
  newTerminalDisposeThrows env = None ->
  Map_has serverId (_runningServers this) = false ->
  Map_has serverId (_terminals this) = false ->
  snd (fst (stopServer started serverId portHint)) = true /\
  _runningServers (fst (fst (stopServer started serverId portHint))) =
    _runningServers this /\
  _terminals (fst (fst (stopServer started serverId portHint))) =
    _terminals this.
Proof.
  intros normalizedPort serverId started F W D Hd Hr Ht. subst started.
  pose proof (start_spawn_state this env port mode folder origin
                hasUserSpecifiedPort fsPath folderValue F W D) as S.
  cbv zeta in S. fold normalizedPort in S. fold serverId in S.
  destruct (startHTFlowServer this env port mode folder origin
              hasUserSpecifiedPort) as [[started result] effects].
  cbn [fst] in *. injection S as S _.
  assert (R : _runningServers started =
              Map_set serverId
                (RunningServer.make normalizedPort mode folderValue (newDate env)
                   (Terminal.make
                      ("HTFlow Server (" ++ mode ++ ":" ++
                       string_of_Z normalizedPort ++ ")")
                      fsPath (newTerminalInterruptThrows env)
                      (newTerminalDisposeThrows env)) origin)
                (_runningServers this) /\
              _terminals started =
              Map_set serverId
                (Terminal.make
                   ("HTFlow Server (" ++ mode ++ ":" ++
                    string_of_Z normalizedPort ++ ")")
                   fsPath (newTerminalInterruptThrows env)
                   (newTerminalDisposeThrows env))
                (_terminals this)).
  { rewrite S. destruct (Origin_eqb origin browser); [|auto].
    match goal with
    | |- context [ensureBrowserPortMapping ?p ?q] =>
        destruct (ensureBrowserPortMapping_fields p q) as (R & T & _)
    end.
    rewrite R, T. auto. }
  destruct R as [R T].
  destruct (stopServer_cases started serverId portHint)
    as [[K _]|[(t & msg & e0 & _ & Ht' & Dt & _)
              |(t & this0 & e0 & _ & _ & _ & E & R' & T' & _)]].
  - exfalso. apply known_false in K. destruct K as [K _].
    rewrite R, Map_get_set_same in K. discriminate.
  - exfalso. unfold terminalOf in Ht'. rewrite T, Map_get_set_same in Ht'.
    simpl in Ht'. injection Ht' as <-. simpl in Dt. congruence.
  - rewrite E. cbn [fst snd]. split; [reflexivity|].
    rewrite R', T', R, T. now rewrite !Map_delete_set_fresh.
Qed.

(** X9, witness: the sample provider. *)
Lemma start_then_stop_witness :
  snd (fst (stopServer liveProvider liveId None)) = true /\
  _runningServers (fst (fst (stopServer liveProvider liveId None))) =
    _runningServers openProvider /\
  _terminals (fst (fst (stopServer liveProvider liveId None))) =
    _terminals openProvider.
Proof.
  exact (start_then_stop openProvider sampleEnv (VInt 3000) "dev" VUndefined
           browser (VBool true) "/work/site" "" None
           eq_refl eq_refl eq_refl eq_refl eq_refl eq_refl).
Defined.

(** X10: A start that fails on a folder that is not a string leaves the new
    terminal in the terminal map with no registry entry beside it;
    [stopServer] with the identifier of that start still disposes the
    terminal, removes the handle and returns [true]. *)
Theorem orphan_terminal_is_stopped this env port mode folder origin
    hasUserSpecifiedPort fsPath portHint :
  let normalizedPort := normalizePort (portParameter port) mode in
  let serverId := serverIdFor mode normalizedPort (dateNow env) in
  let failed := startHTFlowServer this env port mode folder origin
                  hasUserSpecifiedPort in
  findRunningServerByPort this normalizedPort (Some mode) = None ->
  workspaceFolder env = Some fsPath ->
  folderValueOf folder = None ->
  newTerminalDisposeThrows env = None ->
  snd (fst failed) = None /\
  _runningServers (fst (fst failed)) = _runningServers this /\
  Map_has serverId (_terminals (fst (fst failed))) = true /\
  snd (fst (stopServer (fst (fst failed)) serverId portHint)) = true /\
  Map_has serverId
    (_terminals (fst (fst (stopServer (fst (fst failed)) serverId portHint))))
  = false.
Proof.
  intros normalizedPort serverId failed F W D Hd. subst failed.
  pose proof (start_bad_folder this env port mode folder origin
                hasUserSpecifiedPort fsPath F W D) as S.
  cbv zeta in S. fold normalizedPort in S. fold serverId in S.
  destruct (startHTFlowServer this env port mode folder origin
              hasUserSpecifiedPort) as [[failed result] effects].
  cbn [fst snd] in *. injection S as -> ->.
  split; [reflexivity|]. split; [reflexivity|].
  cbn [_terminals set_terminals].
  split; [apply Map_has_set_same|].
  match goal with
  | |- context [stopServer ?p serverId portHint] =>
      destruct (stopServer_cases p serverId portHint)
        as [[K _]|[(t & msg & e0 & _ & Ht' & Dt & _)
                  |(t & this0 & e0 & _ & _ & _ & E & _ & T' & _)]]
  end.
  - exfalso. apply known_false in K. destruct K as [_ K].
    cbn [_terminals set_terminals] in K.
    rewrite Map_has_set_same in K. discriminate.
  - exfalso. unfold terminalOf in Ht'. cbn [_terminals set_terminals] in Ht'.
    rewrite Map_get_set_same in Ht'. simpl in Ht'.
    injection Ht' as <-. simpl in Dt. congruence.
  - rewrite E. cbn [fst snd]. split; [reflexivity|].
    rewrite T'. apply Map_has_delete_same.
Qed.

(** X10, witness: the sample provider. *)
Lemma orphan_terminal_is_stopped_witness :
  snd (fst (startHTFlowServer newProvider sampleEnv (VInt 3050) "dev"
              (VBool true) sidebar (VBool false))) = None /\
  _runningServers
    (fst (fst (startHTFlowServer newProvider sampleEnv (VInt 3050) "dev"
                 (VBool true) sidebar (VBool false)))) = [] /\
  Map_has stubbornId
    (_terminals
       (fst (fst (startHTFlowServer newProvider sampleEnv (VInt 3050) "dev"
                    (VBool true) sidebar (VBool false))))) = true /\
  snd (fst (stopServer
              (fst (fst (startHTFlowServer newProvider sampleEnv (VInt 3050)
                           "dev" (VBool true) sidebar (VBool false))))
              stubbornId None)) = true /\
  Map_has stubbornId
    (_terminals
       (fst (fst (stopServer
                    (fst (fst (startHTFlowServer newProvider sampleEnv
                                 (VInt 3050) "dev" (VBool true) sidebar
                                 (VBool false))))
                    stubbornId None)))) = false.
Proof.
  exact (orphan_terminal_is_stopped newProvider sampleEnv (VInt 3050) "dev"
           (VBool true) sidebar (VBool false) "/work/site" None
           eq_refl eq_refl eq_refl eq_refl).
Defined.

(** ** [dispose] *)

Lemma disposeEach_normal terminals :
  snd (disposeEach terminals) = None <->
  (forall e, In e terminals -> Terminal.disposeThrows (snd e) = None).
Proof.
  induction terminals as [|[k t] r IH]; simpl.
  - split; [intros _ e []|reflexivity].
  - destruct (Terminal.disposeThrows t) as [msg|] eqn:D; simpl.
    + split; [discriminate|]. intros H.
      specialize (H (k, t) (or_introl eq_refl)). simpl in H. congruence.
    + destruct (disposeEach r) as [effects thrown]. simpl in *.
      rewrite IH. split.
      * intros H e [<-|Hin]; auto.
      * intros H e Hin. apply H. auto.
Qed.

Lemma disposeEach_all terminals :
  snd (disposeEach terminals) = None ->
  forall e, In e terminals -> In (TerminalDispose (snd e)) (fst (disposeEach terminals)).
Proof.
  induction terminals as [|[k t] r IH]; simpl; [intros _ e []|].
  destruct (Terminal.disposeThrows t) as [msg|]; simpl; [discriminate|].
  destruct (disposeEach r) as [effects thrown]. simpl in *.
  intros N e [<-|Hin]; simpl; auto.
Qed.

(** X13: [dispose] is all or nothing on the two maps. It returns normally
    exactly when no terminal throws on disposal; then every terminal of the
    map was disposed and the registry and the terminal map are empty. When a
    terminal throws, its error escapes and the registry and the terminal map
    keep every entry. Either way the file watcher and the browser panel are
    gone. *)
Theorem dispose_all_or_nothing this :
  let after := fst (fst (dispose this)) in
  (snd (dispose this) = None <->
   forall e, In e (_terminals this) -> Terminal.disposeThrows (snd e) = None) /\
  (snd (dispose this) = None ->
   _runningServers after = [] /\ _terminals after = [] /\
   forall e, In e (_terminals this) ->
     In (TerminalDispose (snd e)) (snd (fst (dispose this)))) /\
  (snd (dispose this) <> None ->
   _runningServers after = _runningServers this /\
   _terminals after = _terminals this) /\
  _fileWatcher after = false /\
  _browserPanel after = None.
Proof.
  intros after. subst after. unfold dispose.
  assert (T : forall (p : Provider) (b : bool), _terminals (set_browserPanel None
                (if b then set_fileWatcher false p else p)) = _terminals p)
    by (intros p []; reflexivity).
  rewrite T.
  pose proof (disposeEach_normal (_terminals this)) as N.
  pose proof (disposeEach_all (_terminals this)) as A.
  destruct (disposeEach (_terminals this)) as [e3 [msg|]]; cbn [fst snd] in *.
  - split; [exact N|]. split; [discriminate|]. split.
    + intros _. destruct (_fileWatcher this); auto.
    + destruct (_fileWatcher this) eqn:W; simpl; auto.
  - split; [exact N|]. split.
    + intros _. repeat split.
      intros e Hin. apply in_or_app. right. apply in_or_app. right.
      apply A; auto.
    + split; [congruence|].
      destruct (_fileWatcher this) eqn:W; simpl; auto.
Qed.

(** X13, witness: the sample provider. *)
Lemma dispose_all_or_nothing_witness :
  _runningServers (fst (fst (dispose stubbornProvider))) =
    _runningServers stubbornProvider /\
  _terminals (fst (fst (dispose stubbornProvider))) = _terminals stubbornProvider.
Proof.
  refine (proj1 (proj2 (proj2 (dispose_all_or_nothing stubbornProvider))) _).
  discriminate.
Defined.

(** ** The [browserReady] message *)

(** X14: The browser panel that reports ready is answered with one message:
    [liveServerStarted], with the port, identifier and mode of the target,
    when the live-preview target names a running server, and
    [liveServerStopped] otherwise. A target that names no running server is
    dropped; the registry and the terminal map are left alone. *)
Theorem browserReady_answers_once this :
  let after := fst (browserReady this) in
  _runningServers after = _runningServers this /\
  _terminals after = _terminals this /\
  targetConsistent after /\
  match _browserLiveServerId this with
  | Some serverId =>
      match Map_get serverId (_runningServers this) with
      | Some server =>
          if (serverId =? "")%string
          then posted (snd (browserReady this)) =
                 [(BrowserPanel, liveServerStopped)]
          else posted (snd (browserReady this)) =
                 [(BrowserPanel,
                   liveServerStarted (RunningServer.port server) serverId
                     (RunningServer.mode server))] /\
               _browserLiveServerId after = Some serverId /\
               (hasBrowserPanel this = true ->
                In (RunningServer.port server) (forwardedPorts after))
      | None =>
          posted (snd (browserReady this)) = [(BrowserPanel, liveServerStopped)] /\
          (serverId <> "" -> _browserLiveServerId after = None)
      end
  | None =>
      posted (snd (browserReady this)) = [(BrowserPanel, liveServerStopped)] /\
      _browserLiveServerId after = None
  end.
Proof.
  intros after. subst after.
  split; [apply browserReady_fields|].
  split; [apply browserReady_panel|].
  split; [apply targetConsistent_browserReady|].
  unfold browserReady.
  destruct (_browserLiveServerId this) as [i|] eqn:T;
    [|cbn [fst snd]; split; [reflexivity|exact T]].
  destruct (Map_get i (_runningServers this)) as [s|] eqn:G.
  - destruct (i =? "")%string; [reflexivity|].
    cbn [fst snd posted]. split; [reflexivity|]. split.
    + destruct (ensureBrowserPortMapping_fields this (RunningServer.port s))
        as (_ & _ & T' & _). now rewrite T'.
    + unfold hasBrowserPanel.
      destruct (_browserPanel this) as [m|] eqn:P; [|discriminate].
      intros _. now apply ensure_forwards with (mappings := m).
  - destruct (String.eqb_spec i "") as [->|Hne]; cbn [fst snd posted].
    + split; [reflexivity|]. congruence.
    + split; reflexivity.
Qed.

(** X14, witness: the sample provider, whose target runs on port 3000. *)
Lemma browserReady_answers_once_witness :
  posted (snd (browserReady liveProvider)) =
    [(BrowserPanel, liveServerStarted 3000 liveId "dev")].
Proof.
  exact (proj1 (proj2 (proj2 (proj2 (browserReady_answers_once liveProvider))))).
Defined.

(** ** [findRunningServerByPort] *)

Lemma findIn_None_conv port mode entries :
  (forall e, In e entries -> matchesPort port mode (snd e) = false) ->
  findIn port mode entries = None.
Proof.
  induction entries as [|[k v] r IH]; intros H; [reflexivity|].
  pose proof (H (k, v) (or_introl eq_refl)) as M. simpl in M.
  simpl. rewrite M.
  apply IH. intros e Hin. apply H. now right.
Qed.

(** X15: A lookup by port returns an entry of the registry that serves the port,
    in the mode asked for when a mode that is not empty was given; it returns
    nothing exactly when the registry has no such entry; and an empty mode
    asks for nothing, like no mode at all. *)
Theorem findRunningServerByPort_sound_complete this port mode :
  (forall serverId server,
     findRunningServerByPort this port mode = Some (serverId, server) ->
     In (serverId, server) (_runningServers this) /\
     RunningServer.port server = port /\
     (forall m, mode = Some m -> m <> "" -> RunningServer.mode server = m)) /\
  (findRunningServerByPort this port mode = None <->
   forall serverId server,
     In (serverId, server) (_runningServers this) ->
     RunningServer.port server <> port \/
     (exists m, mode = Some m /\ m <> "" /\ RunningServer.mode server <> m)) /\
  findRunningServerByPort this port (Some "") =
    findRunningServerByPort this port None.
Proof.
  unfold findRunningServerByPort. split; [|split].
  - intros serverId server F. apply findIn_Some in F. destruct F as [Hin M].
    split; auto. unfold matchesPort in M. apply andb_true_iff in M.
    destruct M as [Mp Mm]. apply Z.eqb_eq in Mp. split; auto.
    intros m -> Hm. apply orb_true_iff in Mm. destruct Mm as [Mm|Mm].
    + apply String.eqb_eq in Mm. contradiction.
    + now apply String.eqb_eq in Mm.
  - split.
    + intros F serverId server Hin.
      pose proof (findIn_None _ _ _ F _ Hin) as M. simpl in M.
      unfold matchesPort in M. apply andb_false_iff in M.
      destruct M as [M|M].
      * left. now apply Z.eqb_neq.
      * right. destruct mode as [m|]; [|discriminate].
        apply orb_false_iff in M. destruct M as [M1 M2].
        exists m. repeat split.
        -- now apply String.eqb_neq.
        -- now apply String.eqb_neq.
    + intros H. apply findIn_None_conv. intros [k v] Hin. simpl.
      destruct (matchesPort port mode v) eqn:M; [|reflexivity].
      exfalso. unfold matchesPort in M. apply andb_true_iff in M.
      destruct M as [Mp Mm]. apply Z.eqb_eq in Mp.
      destruct (H k v Hin) as [Hp|(m & -> & Hm & Hd)]; [contradiction|].
      apply orb_true_iff in Mm. destruct Mm as [Mm|Mm];
        apply String.eqb_eq in Mm; congruence.
  - induction (_runningServers this) as [|[k v] r IH]; [reflexivity|].
    simpl. unfold matchesPort. simpl. now rewrite IH.
Qed.

(** X15, witness: the sample provider. *)
Lemma findRunningServerByPort_sound_complete_witness :
  In (liveId, liveServer) (_runningServers liveProvider) /\
  RunningServer.port liveServer = 3000 /\
  (forall m, Some "dev" = Some m -> m <> "" -> RunningServer.mode liveServer = m).
Proof.
  exact (proj1 (findRunningServerByPort_sound_complete liveProvider 3000
                  (Some "dev")) liveId liveServer eq_refl).
Defined.

(** ** The browser panel: start and stop *)





Section BrowserPanelFacts.
Context {B : JsBuiltins}.




Lemma stop_changes_provider this serverId port this' effects :
  stopServer this serverId port = (this', true, effects) -> this' <> this.
Proof.
  intros S E. subst this'.
  destruct (stopServer_cases this serverId port)
    as [[_ E]|[(t & msg & e0 & _ & _ & _ & E & _)
              |(t & this0 & e0 & K & _ & _ & E & R & T & _)]];
    rewrite E in S; try discriminate.
  injection S as Heq _. rewrite Heq in R, T.
  unfold known, notFound in K. apply negb_true_iff in K.
  apply andb_false_iff in K.
  assert (H1 : Map_has serverId (_runningServers this) = false)
    by (rewrite R; apply Map_has_delete_same).
  assert (H2 : Map_has serverId (_terminals this) = false)
    by (rewrite T; apply Map_has_delete_same).
  rewrite H1, H2 in K. destruct K; discriminate.
Qed.

(** X17: The browser panel that asks to stop a server is sent [liveServerError]
    exactly when nothing was stopped: when there is no candidate to stop, or
    [stopServer] returned [false]. In those cases the provider is left as it
    was; in every other case it is not. *)
Theorem browser_stop_error_iff_unchanged this (message : Message) :
  let run := openBrowserPanel_onStopLiveServer this message in
  (exists error, In (BrowserPanel, liveServerError error) (posted (snd run))) <->
  fst run = this.
Proof.
  intros run. subst run. unfold openBrowserPanel_onStopLiveServer.
  destruct (candidateIdOf this message) as [c|]; cbn [fst snd].
  - destruct (stopServer_cases this c (resolvedPortOf message))
      as [[_ E]|[(t & msg & e0 & _ & _ & _ & E & P & _)
                |(t & this0 & e0 & K & Ht & D & E & _)]];
      rewrite E; cbn [fst snd].
    + split; auto. intros _. eexists. simpl. eauto.
    + split; auto. intros _. eexists. rewrite posted_app, P. simpl. eauto.
    + split.
      * intros [error Hin]. exfalso.
        destruct (stopServer_success this c (resolvedPortOf message) t K Ht D)
          as (p' & e' & E' & P).
        rewrite E in E'. injection E' as _ <-.
        rewrite app_nil_r, P in Hin. apply in_app_or in Hin.
        destruct Hin as [Hin|Hin].
        -- apply in_map_iff in Hin. destruct Hin as (x & Hx & _). discriminate.
        -- destruct (isTarget this c && hasBrowserPanel this)%bool;
             [destruct Hin as [Hin|[]]; discriminate|destruct Hin].
      * intros Heq. exfalso. eapply stop_changes_provider; eauto.
  - split; auto. intros _. eexists. simpl. eauto.
Qed.

End BrowserPanelFacts.


(** ** The serve commands of the sidebar and the panel *)

Section ServeFacts.
Context {B : JsBuiltins}.

Lemma serve_dev_operation (message : Message) :
  isCommand message "htflow.serve.dev" = true ->
  operation (resolveWebviewView_onMessage message) =
    StartHTFlowServer (portOr message 3050) "dev" (message "folder") sidebar
      (hasUserPort message) /\
  operation (attachMessageHandler_onMessage message) =
    StartHTFlowServer (portOr message 3050) "dev" (message "folder") sidebar
      (hasUserPort message).
Proof.
  unfold resolveWebviewView_onMessage, attachMessageHandler_onMessage.
  cbn [operation]. unfold isCommand.
  destruct (message "command") as [| |b|n|s]; try discriminate.
  intros E. apply String.eqb_eq in E. subst s. split; reflexivity.
Qed.

Lemma serve_prod_operation (message : Message) :
  isCommand message "htflow.serve.prod" = true ->
  operation (resolveWebviewView_onMessage message) =
    StartHTFlowServer (portOr message 3051) "start" (message "folder") sidebar
      (hasUserPort message) /\
  operation (attachMessageHandler_onMessage message) =
    StartHTFlowServer (portOr message 3051) "start" (message "folder") sidebar
      (hasUserPort message).
Proof.
  unfold resolveWebviewView_onMessage, attachMessageHandler_onMessage.
  cbn [operation]. unfold isCommand.
  destruct (message "command") as [| |b|n|s]; try discriminate.
  intros E. apply String.eqb_eq in E. subst s. split; reflexivity.
Qed.

(** X19: A [htflow.serve.dev] or [htflow.serve.prod] message without a port, from
    the sidebar or from the panel, asks for the default port of the command,
    3050 or 3051, with the port flagged as not given. When no server runs on
    that port in that mode, a workspace is open and the folder can be
    trimmed, the call records a server from the sidebar on that port and
    starts it with the short command line, "npx htflow dev [folder]" or
    "npx htflow serve [folder]". *)
Theorem serve_without_port this env (message : Message) fsPath folderValue :
  truthy (message "port") = false ->
  workspaceFolder env = Some fsPath ->
  folderValueOf (message "folder") = Some folderValue ->
  let folderArg := if (folderValue =? "")%string then "" else " " ++ folderValue in
  let served (defaultPort : Z) (mode short : string) :=
    exists port flag,
      operation (resolveWebviewView_onMessage message) =
        StartHTFlowServer port mode (message "folder") sidebar flag /\
      operation (attachMessageHandler_onMessage message) =
        StartHTFlowServer port mode (message "folder") sidebar flag /\
      exists this' serverId server effects,
        startHTFlowServer this env port mode (message "folder") sidebar flag =
          (this', Some (serverId, server), effects) /\
        RunningServer.port server = defaultPort /\
        RunningServer.mode server = mode /\
        RunningServer.folder server = folderValue /\
        RunningServer.origin server = sidebar /\
        sentTexts effects = [short ++ folderArg] in
  (isCommand message "htflow.serve.dev" = true ->
   findRunningServerByPort this 3050 (Some "dev") = None ->
   served 3050 "dev" "npx htflow dev") /\
  (isCommand message "htflow.serve.prod" = true ->
   findRunningServerByPort this 3051 (Some "start") = None ->
   served 3051 "start" "npx htflow serve").
Proof.
  intros P W D folderArg served. subst served. cbv beta.
  assert (Po : forall d, portOr message d = VInt d)
    by (intros d; unfold portOr; now rewrite P).
  assert (Hu : truthy (hasUserPort message) = false)
    by (unfold hasUserPort; now rewrite P).
  split; intros C F.
  - destruct (serve_dev_operation message C) as [O1 O2].
    exists (portOr message 3050), (hasUserPort message).
    split; [exact O1|]. split; [exact O2|]. rewrite Po.
    destruct (start_spawns this env (VInt 3050) "dev" (message "folder") sidebar
                (hasUserPort message) fsPath folderValue F W D)
      as (this' & serverId & server & effects & S & Pt & M & Fo & Or & T).
    exists this', serverId, server, effects.
    rewrite Hu in T. repeat split; auto.
  - destruct (serve_prod_operation message C) as [O1 O2].
    exists (portOr message 3051), (hasUserPort message).
    split; [exact O1|]. split; [exact O2|]. rewrite Po.
    destruct (start_spawns this env (VInt 3051) "start" (message "folder")
                sidebar (hasUserPort message) fsPath folderValue F W D)
      as (this' & serverId & server & effects & S & Pt & M & Fo & Or & T).
    exists this', serverId, server, effects.
    rewrite Hu in T. repeat split; auto.
Qed.
End ServeFacts.

(** X19, witness: the sample provider. *)
Lemma serve_without_port_witness :
  exists port flag,
    operation (resolveWebviewView_onMessage (B := decimalBuiltins) serveDevMessage) =
      StartHTFlowServer port "dev" (serveDevMessage "folder") sidebar flag /\
    operation (attachMessageHandler_onMessage (B := decimalBuiltins) serveDevMessage) =
      StartHTFlowServer port "dev" (serveDevMessage "folder") sidebar flag /\
    exists this' serverId server effects,
      startHTFlowServer newProvider sampleEnv port "dev"
        (serveDevMessage "folder") sidebar flag =
        (this', Some (serverId, server), effects) /\
      RunningServer.port server = 3050 /\
      RunningServer.mode server = "dev" /\
      RunningServer.folder server = "site" /\
      RunningServer.origin server = sidebar /\
      sentTexts effects = ["npx htflow dev site"].
Proof.
  exact (proj1 (serve_without_port (B := decimalBuiltins) newProvider sampleEnv
                  serveDevMessage "/work/site" "site" eq_refl eq_refl eq_refl)
           eq_refl eq_refl).
Defined.

(** ** The audit, in the panel and in the terminal *)

(** X20: An audit runs the same command line whether its results are shown in
    the panel or not: "npx htflow audit", followed by the trimmed folder when
    the folder is not blank. Shown in the panel it needs an open workspace
    and sends nothing without one; in the terminal alone it runs either
    way. *)
Theorem audit_command_line this env workspace folder successMessage :
  let commandLine :=
    match folder with
    | Some f =>
        if (trim f =? "")%string then "npx htflow audit"
        else "npx htflow audit " ++ trim f
    | None => "npx htflow audit"
    end in
  sentTexts (executeHTFlowCommandWithFolder workspace "audit" folder
               successMessage) = [commandLine] /\
  sentTexts (executeHTFlowAuditForPanel this env folder successMessage) =
    match exec_workspaceFolder env with
    | Some _ => [commandLine]
    | None => []
    end.
Proof.
  intros commandLine. subst commandLine. split.
  - unfold executeHTFlowCommandWithFolder. cbn [sentTexts String.eqb Ascii.eqb].
    destruct folder as [f|]; [|reflexivity].
    destruct (String.eqb_spec f "") as [->|Hf]; [reflexivity|].
    cbn [orb]. destruct (trim f =? "")%string; reflexivity.
  - unfold executeHTFlowAuditForPanel.
    destruct (exec_workspaceFolder env) as [fsPath|]; [|reflexivity].
    cbn [sentTexts app].
    assert (R : forall rest, sentTexts rest = [] ->
              forall c, c :: sentTexts rest = [c]) by (intros ? -> ?; reflexivity).
    assert (Hrest : sentTexts
              match exec_outcome env with
              | Resolved stdout stderr =>
                  (postIf (_view this) SidebarView
                     (auditResults (str_or (str_or stdout stderr) "No output received")) ++
                   postIf (_currentPanel this) DetachedPanel
                     (auditResults (str_or (str_or stdout stderr) "No output received")) ++
                   [ShowInformationMessage successMessage])%list
              | Rejected execError =>
                  ((if (str_or (str_or (err_stdout execError) (err_stderr execError))
                          (err_message execError) =? "")%string
                    then []
                    else
                      (postIf (_view this) SidebarView
                         (auditResults
                            (str_or (str_or (err_stdout execError) (err_stderr execError))
                               (err_message execError))) ++
                       postIf (_currentPanel this) DetachedPanel
                         (auditResults
                            (str_or (str_or (err_stdout execError) (err_stderr execError))
                               (err_message execError))))%list) ++
                   [ShowErrorMessage
                      ("HTFlow audit failed: " ++ err_message execError)%string])%list
              end = []).
    { destruct (exec_outcome env) as [o e|e].
      - rewrite !sentTexts_app, !sentTexts_postIf. reflexivity.
      - rewrite sentTexts_app.
        destruct (_ =? "")%string;
          rewrite ?sentTexts_app, ?sentTexts_postIf; reflexivity. }
    rewrite Hrest. unfold folderSuffix.
    destruct folder as [f|]; [|reflexivity].
    destruct (trim f =? "")%string; reflexivity.
Qed.

(** ** The lines that the minimap decorates *)

Lemma prefix_app_includes a b : forall s,
  String.prefix (a ++ b) s = true -> includes b s = true.
Proof.
  induction a as [|c a IH]; intros s H.
  - change ("" ++ b) with b in H.
    destruct s; cbn [includes]; rewrite H; reflexivity.
  - destruct s as [|c' s]; simpl in H; [discriminate|].
    destruct (ascii_dec c c'); [|discriminate].
    cbn [includes]. rewrite (IH s H). apply orb_true_r.
Qed.

Lemma includes_app a b s :
  includes (a ++ b) s = true -> includes b s = true.
Proof.
  induction s as [|c r IH]; intros H.
  - cbn [includes] in H. rewrite orb_false_r in H.
    now apply prefix_app_includes in H.
  - cbn [includes] in H.
    apply orb_true_iff in H. destruct H as [H|H].
    + now apply prefix_app_includes in H.
    + cbn [includes]. rewrite (IH H). apply orb_true_r.
Qed.

(** The six patterns of [findHTFlowLines] say no more than two of them. *)
Lemma patterns_collapse text :
  existsb (fun pattern => testIgnoreCase pattern text) htflowPatterns =
  mentionsHTFlow text.
Proof.
  unfold htflowPatterns, testIgnoreCase, mentionsHTFlow. cbn [existsb].
  change (lower "data-ht-") with ("data-" ++ "ht-").
  change (lower "ht-") with "ht-".
  change (lower "htflow") with "htflow".
  change (lower "@htflow") with ("@" ++ "htflow").
  change (lower "<!-- HTFlow") with ("<!-- " ++ "htflow").
  change (lower "HTFlow") with "htflow".
  pose proof (includes_app "data-" "ht-" (lower text)) as H1.
  pose proof (includes_app "@" "htflow" (lower text)) as H2.
  pose proof (includes_app "<!-- " "htflow" (lower text)) as H3.
  destruct (includes ("data-" ++ "ht-") (lower text));
    destruct (includes "ht-" (lower text));
    destruct (includes "htflow" (lower text));
    destruct (includes ("@" ++ "htflow") (lower text));
    destruct (includes ("<!-- " ++ "htflow") (lower text));
    try reflexivity;
    try (specialize (H1 eq_refl); discriminate);
    try (specialize (H2 eq_refl); discriminate);
    try (specialize (H3 eq_refl); discriminate).
Qed.

(** X21: [findHTFlowLines] returns, in the order of the document, one range for
    each line that contains "ht-" or "htflow" in any letter case, no range
    for any other line, and each range covers its line from the first
    character to the last. *)
Theorem findHTFlowLines_characterized document :
  findHTFlowLines document =
  map lineRange
      (filter (fun line => mentionsHTFlow (snd line)) (numbered 0 document)).
Proof.
  unfold findHTFlowLines. generalize 0%nat.
  induction document as [|text rest IH]; intros lineNumber; [reflexivity|].
  cbn [findHTFlowLinesFrom numbered filter snd].
  rewrite patterns_collapse, IH.
  destruct (mentionsHTFlow text); reflexivity.
Qed.

(** The sample document: its first and third line are decorated. *)
Example findHTFlowLines_sample :
  map startLine (findHTFlowLines sampleDocument) = [0; 2]%nat.
Proof. vm_compute. reflexivity. Qed.
